(** * Weather forecast service

    A shallow embedding of [weather.py] (class [Weather]) and [app.py]
    (the Flask routes), followed by the properties of the cleaning
    pipeline, the weather-code translator and the response envelope.

    Conventions of the embedding:
    - a Python [str] is a [string] holding its UTF-8 bytes;
    - a Python [dict] used as a map is a [gmap]; assignment [d[k] = v]
      is [<[k:=v]> d], so a repeated key overwrites the earlier entry;
    - a Python [list] is a [list]; [l[i]] with [0 <= i] is [getitem],
      which raises [IndexError] out of range;
    - a raised exception is the [Raise] branch of [outcome];
    - measurements (temperatures, wind speed, ...) and coordinates are
      copied and never inspected by the code, so their types [num] and
      [coords] are parameters. *)

From Stdlib Require Import ZArith Lia.
From stdpp Require Import gmap strings list fin_maps.

(** ** The fragment of the Python runtime used by the program *)

Module Py.

Inductive exn_kind := ValueError | IndexError | UpstreamError.

(** [str(e)] of an exception is its [detail]. *)
Record exn := { kind : exn_kind; detail : string }.

Inductive outcome (A : Type) : Type :=
| Return (a : A)
| Raise (e : exn).
Arguments Return {A} a.
Arguments Raise {A} e.

(** Sequencing: an exception raised by the first statement skips the
    rest.  With these instances [x ← m; k] is stdpp's bind notation. *)
#[global] Instance outcome_ret : MRet outcome := fun A a => Return a.
#[global] Instance outcome_bind : MBind outcome := fun A B k m =>
  match m with
  | Return a => k a
  | Raise e => Raise e
  end.

(** What CPython reports for [l[i]] with [i] out of range. *)
Definition index_error : exn :=
  {| kind := IndexError; detail := "list index out of range" |}.

(** [l[i]] for a non-negative index. *)
Definition getitem {A : Type} (l : list A) (i : nat) : outcome A :=
  match l !! i with
  | Some x => Return x
  | None => Raise index_error
  end.

(** [for x in xs: body], threading the loop state. *)
Fixpoint for_each {A S : Type} (xs : list A) (body : A -> S -> outcome S) (s : S)
  : outcome S :=
  match xs with
  | [] => Return s
  | x :: xs' => s' ← body x s; for_each xs' body s'
  end.

(** Storing items into a dict one after the other, and a dict literal
    [{k1: v1, k2: v2, ...}]: entries are stored left to right, a later
    duplicate key replacing an earlier one. *)
Definition store_all {K V : Type} `{Countable K} (acc : gmap K V) (items : list (K * V))
  : gmap K V :=
  foldl (fun m kv => <[kv.1 := kv.2]> m) acc items.

Definition dict_literal {K V : Type} `{Countable K} (items : list (K * V)) : gmap K V :=
  store_all ∅ items.

(** [d.get(k, dflt)]. *)
Definition dict_get {K V : Type} `{Countable K} (d : gmap K V) (k : K) (dflt : V) : V :=
  match d !! k with
  | Some v => v
  | None => dflt
  end.

(** [sep.join(parts)]. *)
Fixpoint join (sep : string) (parts : list string) : string :=
  match parts with
  | [] => ""
  | [p] => p
  | p :: ps => p +:+ sep +:+ join sep ps
  end.

End Py.

Import Py.

(** ** weather.py *)

Module Weather.

(** The dict literal of [_get_string_for_weather_code], entry by entry. *)
Definition weather_dict_items : list (Z * string) := [
  (0, "Wolkenentwicklung nicht bekannt, letzte Stunde");
  (1, "Abnehmende Bewölkung, letzte Stunde");
  (2, "Keine Bewölkungsänderung, letzte Stunde");
  (3, "Zunehmende Bewölkung, letzte Stunde");
  (4, "Sicht durch Rauch reduziert");
  (5, "Dunst");
  (6, "Schwebender Staub, ohne Windeinwirkung");
  (7, "Staub oder Sand, vom Wind gehoben");
  (8, "Staubteufel");
  (9, "Staub- oder Sandsturm an der Station, oder in Sichtweite");
  (10, "feuchter Dunst/schwacher Nebel");
  (11, "Nebelschwaden am Boden");
  (12, "Durchgehend Bodennebel");
  (13, "Wetterleuchten (kein Donner)");
  (14, "Niederschlag sichtbar, erreicht nicht den Boden");
  (15, "Niederschlag in der Ferne, erreicht Boden");
  (16, "Niederschlag in der Nähe, erreicht Boden");
  (17, "Gewitter hörbar, kein Niederschlag");
  (18, "Markante Windböen");
  (19, "Tornado, Wasserhose oder Funnel");
  (20, "Nach Sprühregen");
  (21, "Nach Regen");
  (22, "Nach Schnee");
  (23, "Nach Schneeregen");
  (24, "Nach gefrierendem Regen");
  (25, "Nach Regenschauern");
  (26, "Nach Schneeschauern");
  (27, "Nach Hagelschauern");
  (28, "Nach Nebel");
  (29, "Nach Gewitter");
  (30, "Leichter/mäßiger Sandsturm, nachlassend");
  (31, "Leichter/mäßiger Sandsturm, gleichbleibend");
  (32, "Leichter/mäßiger Sandsturm, zunehmend");
  (33, "Schwerer Sandsturm, nachlassend");
  (34, "Schwerer Sandsturm, gleichbleibend");
  (35, "Schwerer Sandsturm, zunehmend");
  (36, "Leichtes/mäßiges Schneefegen");
  (37, "Starkes Schneefegen");
  (38, "Leichtes/mäßiges Schneetreiben");
  (39, "Starkes Schneetreiben");
  (40, "Nebel in der Ferne");
  (41, "Nebelschwaden");
  (42, "Nebel, Himmel sichtbar, abnehmend");
  (43, "Nebel, Himmel verdeckt, abnehmend");
  (44, "Nebel, Himmel sichtbar, gleichbleibend");
  (45, "Nebel, Himmel verdeckt, gleichbleibend");
  (46, "Nebel, Himmel sichtbar, zunehmend");
  (47, "Nebel, Himmel verdeckt, zunehmend");
  (48, "Raueis mit Nebel, Himmel sichtbar");
  (49, "Raueis mit Nebel, Himmel verdeckt");
  (50, "Leichter Sprühregen, unterbrochen");
  (51, "Leichter Sprühregen, anhaltend");
  (52, "Mäßiger Sprühregen, unterbrochen");
  (53, "Mäßiger Sprühregen, anhaltend");
  (54, "Starker Sprühregen, unterbrochen");
  (55, "Starker Sprühregen, anhaltend");
  (56, "Gefrierender Sprühregen, leicht");
  (57, "Gefrierender Sprühregen, mäßig/stark");
  (58, "Leichter Regen und Sprühregen");
  (59, "Mäßiger/Starker Regen und Sprühregen");
  (60, "Leichter Regen, unterbrochen");
  (61, "Leichter Regen, anhaltend");
  (62, "Mäßiger Regen, unterbrochen");
  (63, "Mäßiger Regen, anhaltend");
  (64, "Starker Regen, unterbrochen");
  (65, "Starker Regen, anhaltend");
  (66, "Gefrierender leichter Regen");
  (67, "Gefrierender mäßiger/starker Regen");
  (68, "Leichter Schneeregen");
  (69, "Mäßiger/Starker Schneeregen");
  (70, "Leichter Schneefall, unterbrochen");
  (71, "Leichter Schneefall, anhaltend");
  (72, "Mäßiger Schneefall, unterbrochen");
  (73, "Mäßiger Schneefall, anhaltend");
  (74, "Starker Schneefall, unterbrochen");
  (75, "Starker Schneefall, anhaltend");
  (76, "Eisnadeln");
  (77, "Schneegriesel");
  (78, "Schneekristalle");
  (79, "Eiskörner");
  (80, "Leichte Regenschauer");
  (81, "Starke Regenschauer");
  (82, "Sintflutartige Regenschauer");
  (83, "Leichte Schneeregenschauer");
  (84, "Starke Schneeregenschauer");
  (85, "Leichte Schneeschauer");
  (86, "Starke Schneeschauer");
  (87, "Leichte Graupelschauer");
  (88, "Starke Graupelschauer");
  (89, "Leichte Hagelschauer ohne Gewitter");
  (90, "Starke Hagelschauer ohne Gewitter");
  (91, "Leichter Regen, letzte Stunde Gewitter hörbar");
  (92, "Starker Regen, letzte Stunde Gewitter hörbar");
  (93, "Leichter Schnee/Regen-Hagel, letzte Stunde Gewitter hörbar");
  (94, "Starker Schnee/Regen-Hagel, letzte Stunde Gewitter hörbar");
  (95, "Leichtes/mäßiges Gewitter mit Regen/Schnee");
  (96, "Leichtes/mäßiges Gewitter mit Hagel");
  (97, "Schweres Gewitter mit Regen/Schnee");
  (98, "Gewitter mit Sandsturm");
  (99, "Schweres Gewitter mit Hagel")
]%Z.

Definition weather_dict : gmap Z string := dict_literal weather_dict_items.

Definition _get_string_for_weather_code (weather_code : Z) : string :=
  dict_get weather_dict weather_code "unbekannt".

Section Service.

Set Implicit Arguments.
Set Maximal Implicit Insertion.

(** The type of the provider's measurements and of coordinates
    (Python floats, passed through untouched). *)
Variable num : Type.

(** [weather_data['daily']]: parallel arrays, only the fields read. *)
Record daily_raw : Type := {
  d_time : list string;
  d_temperature_2m_max : list num;
  d_temperature_2m_min : list num;
  d_precipitation_sum : list num;
  d_weathercode : list Z;
  d_windspeed_10m_max : list num;
  d_winddirection_10m_dominant : list num
}.

(** [weather_data['hourly']]. *)
Record hourly_raw : Type := {
  h_time : list string;
  h_temperature_2m : list num;
  h_precipitation : list num;
  h_weathercode : list Z;
  h_windspeed_10m : list num;
  h_winddirection_10m : list num;
  h_pressure_msl : list num;
  h_relativehumidity_2m : list num
}.

Record raw_forecast : Type := {
  raw_daily : daily_raw;
  raw_hourly : hourly_raw
}.

(** The record stored under one daily timestamp. *)
Record daily_entry : Type := {
  max_temp : num;
  min_temp : num;
  d_niederschlag : num;
  d_wetter : string;
  d_wind_geschwindigkeit : num;
  d_wind_richtung : num
}.

(** The record stored under one hourly timestamp. *)
Record hourly_entry : Type := {
  temp : num;
  h_niederschlag : num;
  h_wetter : string;
  h_wind_geschwindigkeit : num;
  h_wind_richtung : num;
  luftdruck : num;
  luftfeuchte : num
}.

(** [cleaned_data]: the keys ['hourly'] and ['daily'] exist from the
    start, ['city'], ['country'] and ['ai_text'] once [get_forecast]
    has stored them. *)
Record cleaned_data : Type := {
  hourly : gmap string hourly_entry;
  daily : gmap string daily_entry;
  city : option string;
  country : option string;
  ai_text : option string
}.

(** The ['data'] slot of a response: [{}] or the cleaned forecast. *)
Inductive resp_data : Type :=
| EmptyObj
| Forecast (cd : cleaned_data).

Record envelope : Type := {
  status : string;
  message : string;
  data : resp_data
}.

(** The collaborators of one request: the geocoder ([None] when the
    place is not found), the forecast provider (whose failures are
    exceptions) and the hour of the Europe/Berlin wall clock. *)
Record world : Type := {
  geocode : string -> option (num * num);
  open_meteo : num -> num -> outcome raw_forecast;
  berlin_hour : nat
}.

Definition _get_coordinates_for_city (w : world) (city country : string)
  : outcome (num * num) :=
  match geocode w (city +:+ ", " +:+ country) with
  | None =>
      Raise {| kind := ValueError;
               detail := "We could not find the coordinates for the City: "
                         +:+ city +:+ " in the Country: " +:+ country |}
  | Some location => Return location
  end.

Definition _get_weather_data (w : world) (latitude longitude : num)
  : outcome raw_forecast :=
  open_meteo w latitude longitude.

(** Body of the loop over the daily indices: the record is built
    first, field by field, then the key [time[i]] is read and the
    record stored under it. *)
Definition daily_body (d : daily_raw) (i : nat) (acc : gmap string daily_entry)
  : outcome (gmap string daily_entry) :=
  tmax ← getitem (d_temperature_2m_max d) i;
  tmin ← getitem (d_temperature_2m_min d) i;
  prec ← getitem (d_precipitation_sum d) i;
  code ← getitem (d_weathercode d) i;
  wind ← getitem (d_windspeed_10m_max d) i;
  dir ← getitem (d_winddirection_10m_dominant d) i;
  key ← getitem (d_time d) i;
  Return (<[key := {| max_temp := tmax;
                      min_temp := tmin;
                      d_niederschlag := prec;
                      d_wetter := _get_string_for_weather_code code;
                      d_wind_geschwindigkeit := wind;
                      d_wind_richtung := dir |}]> acc).

(** [for i in range(0, len(time) - 1)]; the range is empty when
    [len(time)] is 0 or 1, which is what truncated subtraction gives. *)
Definition daily_pass (d : daily_raw) : outcome (gmap string daily_entry) :=
  for_each (seq 0 (length (d_time d) - 1)) (daily_body d) ∅.

Definition hourly_body (h : hourly_raw) (i : nat) (acc : gmap string hourly_entry)
  : outcome (gmap string hourly_entry) :=
  t ← getitem (h_temperature_2m h) i;
  prec ← getitem (h_precipitation h) i;
  code ← getitem (h_weathercode h) i;
  wind ← getitem (h_windspeed_10m h) i;
  dir ← getitem (h_winddirection_10m h) i;
  pres ← getitem (h_pressure_msl h) i;
  hum ← getitem (h_relativehumidity_2m h) i;
  key ← getitem (h_time h) i;
  Return (<[key := {| temp := t;
                      h_niederschlag := prec;
                      h_wetter := _get_string_for_weather_code code;
                      h_wind_geschwindigkeit := wind;
                      h_wind_richtung := dir;
                      luftdruck := pres;
                      luftfeuchte := hum |}]> acc).

(** [for i in range(current_hour, current_hour + 12)]. *)
Definition hourly_pass (current_hour : nat) (h : hourly_raw)
  : outcome (gmap string hourly_entry) :=
  for_each (seq current_hour 12) (hourly_body h) ∅.

(** [current_hour] is what the function reads from the clock,
    [datetime.now(de_timezone).hour].  The daily loop runs first; a
    failure in either loop abandons the dict built so far. *)
Definition _clean_weather_data (current_hour : nat) (weather_data : raw_forecast)
  : outcome cleaned_data :=
  dly ← daily_pass (raw_daily weather_data);
  hly ← hourly_pass current_hour (raw_hourly weather_data);
  Return {| hourly := hly; daily := dly;
            city := None; country := None; ai_text := None |}.

Definition _get_ai_text (weather_data : cleaned_data) : string :=
  let ret_str := "" in
  ret_str.

Definition get_forecast (w : world) (city_arg country_arg : string)
  : outcome (envelope * Z) :=
  let response_dict := {| status := ""; message := ""; data := EmptyObj |} in
  match _get_coordinates_for_city w city_arg country_arg with
  | Raise e =>
      match kind e with
      | ValueError =>
          Return ({| status := "error";
                     message := detail e;
                     data := data response_dict |}, 400%Z)
      | _ => Raise e
      end
  | Return (latitude, longitude) =>
      uncleaned_data ← _get_weather_data w latitude longitude;
      match _clean_weather_data (berlin_hour w) uncleaned_data with
      | Raise e =>
          Return ({| status := "error";
                     message := detail e;
                     data := data response_dict |}, 500%Z)
      | Return cleaned =>
          let cleaned1 :=
            {| hourly := hourly cleaned; daily := daily cleaned;
               city := Some city_arg; country := Some country_arg;
               ai_text := ai_text cleaned |} in
          let cleaned2 :=
            {| hourly := hourly cleaned1; daily := daily cleaned1;
               city := city cleaned1; country := country cleaned1;
               ai_text := Some (_get_ai_text cleaned1) |} in
          Return ({| status := "success";
                     message := "The weather data was successfully retrieved";
                     data := Forecast cleaned2 |}, 200%Z)
      end
  end.

Unset Maximal Implicit Insertion.
Unset Implicit Arguments.

End Service.

Arguments EmptyObj {num}.

End Weather.

(** ** app.py *)

Module App.

Section Routes.

Set Implicit Arguments.
Set Maximal Implicit Insertion.

Variable num : Type.

(** The module-level template dict.  The handler takes a shallow copy
    and only rebinds keys of the copy, so the shared [{}] under
    ['data'] is never written to. *)
Definition response_dict : Weather.envelope num :=
  {| Weather.status := ""; Weather.message := ""; Weather.data := Weather.EmptyObj |}.

(** What a view function returns next to its status code. *)
Inductive body : Type :=
| jsonify (e : Weather.envelope num)
| render_template (name : string) (weather_data : option (Weather.resp_data num)).

Definition index : body * Z :=
  (render_template "index.html" None, 200%Z).

(** [args] is [request.args]; [args !! k] is [request.args.get(k)]. *)
Definition get_forecast (w : Weather.world num) (args : gmap string string)
  : outcome (body * Z) :=
  let resp_dict := response_dict in
  let city := args !! "city" in
  let country := args !! "country" in
  let locals : gmap string (option string) :=
    <["country" := country]> (<["city" := city]> ∅) in
  let missing_params :=
    filter (fun key => locals !! key = Some None) ["city"; "country"] in
  if bool_decide (missing_params ≠ []) then
    Return (jsonify {| Weather.status := "error";
                       Weather.message :=
                         "Missing parameters: " +:+ join ", " missing_params;
                       Weather.data := Weather.data resp_dict |}, 400%Z)
  else
    match city, country with
    | Some city, Some country =>
        forecast ← Weather.get_forecast w city country;
        if bool_decide (forecast.2 ≠ 200%Z) then
          Return (jsonify forecast.1, forecast.2)
        else
          Return (render_template "index.html"
                    (Some (Weather.data forecast.1)), 200%Z)
    | _, _ =>
        (* not reached: a [None] parameter is listed in [missing_params] *)
        Raise {| kind := UpstreamError; detail := "unreachable" |}
    end.

Definition get_health : body * Z :=
  (jsonify {| Weather.status := "success";
              Weather.message := "The API is healthy";
              Weather.data := Weather.EmptyObj |}, 200%Z).

Unset Maximal Implicit Insertion.
Unset Implicit Arguments.

End Routes.

Arguments response_dict {num}.
Arguments index {num}.
Arguments get_health {num}.

End App.

(** ** Vocabulary of the properties *)

Module Spec.

Import Weather.

Section Predicates.

Context {num : Type}.

(** Every array read by the hourly loop has at least [n] entries. *)
Definition hourly_lengths_ge (n : nat) (h : hourly_raw num) : Prop :=
  n ≤ length (h_time h) ∧
  n ≤ length (h_temperature_2m h) ∧
  n ≤ length (h_precipitation h) ∧
  n ≤ length (h_weathercode h) ∧
  n ≤ length (h_windspeed_10m h) ∧
  n ≤ length (h_winddirection_10m h) ∧
  n ≤ length (h_pressure_msl h) ∧
  n ≤ length (h_relativehumidity_2m h).

(** Some array read by the hourly loop has fewer than [n] entries. *)
Definition hourly_some_shorter (n : nat) (h : hourly_raw num) : Prop :=
  length (h_time h) < n ∨
  length (h_temperature_2m h) < n ∨
  length (h_precipitation h) < n ∨
  length (h_weathercode h) < n ∨
  length (h_windspeed_10m h) < n ∨
  length (h_winddirection_10m h) < n ∨
  length (h_pressure_msl h) < n ∨
  length (h_relativehumidity_2m h) < n.

(** The daily arrays are as long as [daily.time]. *)
Definition daily_lengths_match (d : daily_raw num) : Prop :=
  length (d_temperature_2m_max d) = length (d_time d) ∧
  length (d_temperature_2m_min d) = length (d_time d) ∧
  length (d_precipitation_sum d) = length (d_time d) ∧
  length (d_weathercode d) = length (d_time d) ∧
  length (d_windspeed_10m_max d) = length (d_time d) ∧
  length (d_winddirection_10m_dominant d) = length (d_time d).

(** The hourly arrays are as long as [hourly.time]. *)
Definition hourly_lengths_match (h : hourly_raw num) : Prop :=
  length (h_temperature_2m h) = length (h_time h) ∧
  length (h_precipitation h) = length (h_time h) ∧
  length (h_weathercode h) = length (h_time h) ∧
  length (h_windspeed_10m h) = length (h_time h) ∧
  length (h_winddirection_10m h) = length (h_time h) ∧
  length (h_pressure_msl h) = length (h_time h) ∧
  length (h_relativehumidity_2m h) = length (h_time h).

(** The invariant of a raw forecast: within one time scale all arrays
    have the length of the shared [time] array. *)
Definition well_formed (raw : raw_forecast num) : Prop :=
  daily_lengths_match (raw_daily raw) ∧ hourly_lengths_match (raw_hourly raw).

(** The hourly record [e] holds the values found at index [i]. *)
Definition hourly_entry_from (h : hourly_raw num) (i : nat) (e : hourly_entry num) : Prop :=
  h_temperature_2m h !! i = Some (temp e) ∧
  h_precipitation h !! i = Some (h_niederschlag e) ∧
  (∃ code, h_weathercode h !! i = Some code ∧
           h_wetter e = _get_string_for_weather_code code) ∧
  h_windspeed_10m h !! i = Some (h_wind_geschwindigkeit e) ∧
  h_winddirection_10m h !! i = Some (h_wind_richtung e) ∧
  h_pressure_msl h !! i = Some (luftdruck e) ∧
  h_relativehumidity_2m h !! i = Some (luftfeuchte e).

(** The daily record [e] holds the values found at index [i]. *)
Definition daily_entry_from (d : daily_raw num) (i : nat) (e : daily_entry num) : Prop :=
  d_temperature_2m_max d !! i = Some (max_temp e) ∧
  d_temperature_2m_min d !! i = Some (min_temp e) ∧
  d_precipitation_sum d !! i = Some (d_niederschlag e) ∧
  (∃ code, d_weathercode d !! i = Some code ∧
           d_wetter e = _get_string_for_weather_code code) ∧
  d_windspeed_10m_max d !! i = Some (d_wind_geschwindigkeit e) ∧
  d_winddirection_10m_dominant d !! i = Some (d_wind_richtung e).

(** The key and record one iteration of the hourly loop stores, when
    every array has index [i]. *)
Definition hourly_item_at (h : hourly_raw num) (i : nat)
  : option (string * hourly_entry num) :=
  t ← h_temperature_2m h !! i;
  prec ← h_precipitation h !! i;
  code ← h_weathercode h !! i;
  wind ← h_windspeed_10m h !! i;
  dir ← h_winddirection_10m h !! i;
  pres ← h_pressure_msl h !! i;
  hum ← h_relativehumidity_2m h !! i;
  key ← h_time h !! i;
  Some (key, {| temp := t;
                h_niederschlag := prec;
                h_wetter := _get_string_for_weather_code code;
                h_wind_geschwindigkeit := wind;
                h_wind_richtung := dir;
                luftdruck := pres;
                luftfeuchte := hum |}).

(** The same for the daily loop. *)
Definition daily_item_at (d : daily_raw num) (i : nat)
  : option (string * daily_entry num) :=
  tmax ← d_temperature_2m_max d !! i;
  tmin ← d_temperature_2m_min d !! i;
  prec ← d_precipitation_sum d !! i;
  code ← d_weathercode d !! i;
  wind ← d_windspeed_10m_max d !! i;
  dir ← d_winddirection_10m_dominant d !! i;
  key ← d_time d !! i;
  Some (key, {| max_temp := tmax;
                min_temp := tmin;
                d_niederschlag := prec;
                d_wetter := _get_string_for_weather_code code;
                d_wind_geschwindigkeit := wind;
                d_wind_richtung := dir |}).

(** Every array read by the daily loop has at least [n] entries. *)
Definition daily_lengths_ge (n : nat) (d : daily_raw num) : Prop :=
  n ≤ length (d_time d) ∧
  n ≤ length (d_temperature_2m_max d) ∧
  n ≤ length (d_temperature_2m_min d) ∧
  n ≤ length (d_precipitation_sum d) ∧
  n ≤ length (d_weathercode d) ∧
  n ≤ length (d_windspeed_10m_max d) ∧
  n ≤ length (d_winddirection_10m_dominant d).

(** Some array read by the daily loop has fewer than [n] entries. *)
Definition daily_some_shorter (n : nat) (d : daily_raw num) : Prop :=
  length (d_time d) < n ∨
  length (d_temperature_2m_max d) < n ∨
  length (d_temperature_2m_min d) < n ∨
  length (d_precipitation_sum d) < n ∨
  length (d_weathercode d) < n ∨
  length (d_windspeed_10m_max d) < n ∨
  length (d_winddirection_10m_dominant d) < n.

(** The twelve entries of every hourly array from index [start] on. *)
Definition hourly_window (start : nat) (h : hourly_raw num) : hourly_raw num :=
  {| h_time := take 12 (drop start (h_time h));
     h_temperature_2m := take 12 (drop start (h_temperature_2m h));
     h_precipitation := take 12 (drop start (h_precipitation h));
     h_weathercode := take 12 (drop start (h_weathercode h));
     h_windspeed_10m := take 12 (drop start (h_windspeed_10m h));
     h_winddirection_10m := take 12 (drop start (h_winddirection_10m h));
     h_pressure_msl := take 12 (drop start (h_pressure_msl h));
     h_relativehumidity_2m := take 12 (drop start (h_relativehumidity_2m h)) |}.

(** The first [n] entries of every daily array. *)
Definition daily_prefix (n : nat) (d : daily_raw num) : daily_raw num :=
  {| d_time := take n (d_time d);
     d_temperature_2m_max := take n (d_temperature_2m_max d);
     d_temperature_2m_min := take n (d_temperature_2m_min d);
     d_precipitation_sum := take n (d_precipitation_sum d);
     d_weathercode := take n (d_weathercode d);
     d_windspeed_10m_max := take n (d_windspeed_10m_max d);
     d_winddirection_10m_dominant := take n (d_winddirection_10m_dominant d) |}.

(** The envelope of a failed request. *)
Definition failure (detail : string) : envelope num :=
  {| status := "error"; message := detail; data := EmptyObj |}.

End Predicates.

(** The text of the [ValueError] raised for a place that is not found. *)
Definition not_found_detail (city_arg country_arg : string) : string :=
  "We could not find the coordinates for the City: " +:+ city_arg
  +:+ " in the Country: " +:+ country_arg.

(** The text after "Missing parameters: " for the parameters that are
    absent from a request. *)
Definition missing_text (city_arg country_arg : option string) : string :=
  match city_arg, country_arg with
  | None, None => "city, country"
  | None, Some _ => "city"
  | Some _, None => "country"
  | Some _, Some _ => ""
  end.

(** [sub] occurs in [s]. *)
Definition contains (s sub : string) : Prop :=
  ∃ pre post, s = pre +:+ sub +:+ post.

End Spec.

(** ** Concrete forecasts and collaborators used in the examples *)

Module Samples.

Import Weather.

Definition stamps : list string :=
  ["T00"; "T01"; "T02"; "T03"; "T04"; "T05"; "T06";
   "T07"; "T08"; "T09"; "T10"; "T11"; "T12"].

Definition readings : list Z := seqZ 100 13.

(** Thirteen hours of data, all arrays aligned, distinct timestamps. *)
Definition hourly_ok : hourly_raw Z :=
  {| h_time := stamps;
     h_temperature_2m := readings;
     h_precipitation := readings;
     h_weathercode := seqZ 0 13;
     h_windspeed_10m := readings;
     h_winddirection_10m := readings;
     h_pressure_msl := readings;
     h_relativehumidity_2m := readings |}.

(** Twelve hours that all carry the same timestamp. *)
Definition hourly_same_stamp : hourly_raw Z :=
  {| h_time := replicate 12 "T00";
     h_temperature_2m := seqZ 100 12;
     h_precipitation := seqZ 100 12;
     h_weathercode := seqZ 0 12;
     h_windspeed_10m := seqZ 100 12;
     h_winddirection_10m := seqZ 100 12;
     h_pressure_msl := seqZ 100 12;
     h_relativehumidity_2m := seqZ 100 12 |}.

(** Eleven hours only: too short for any current hour. *)
Definition hourly_short : hourly_raw Z :=
  {| h_time := take 11 stamps;
     h_temperature_2m := seqZ 100 11;
     h_precipitation := seqZ 100 11;
     h_weathercode := seqZ 0 11;
     h_windspeed_10m := seqZ 100 11;
     h_winddirection_10m := seqZ 100 11;
     h_pressure_msl := seqZ 100 11;
     h_relativehumidity_2m := seqZ 100 11 |}.

(** Three days, distinct timestamps. *)
Definition daily_ok : daily_raw Z :=
  {| d_time := ["D1"; "D2"; "D3"];
     d_temperature_2m_max := [21; 22; 23];
     d_temperature_2m_min := [11; 12; 13];
     d_precipitation_sum := [1; 2; 3];
     d_weathercode := [0; 61; 100];
     d_windspeed_10m_max := [5; 6; 7];
     d_winddirection_10m_dominant := [90; 180; 270] |}%Z.

(** Three days, the first two under the same timestamp. *)
Definition daily_same_stamp : daily_raw Z :=
  {| d_time := ["D1"; "D1"; "D3"];
     d_temperature_2m_max := [21; 22; 23];
     d_temperature_2m_min := [11; 12; 13];
     d_precipitation_sum := [1; 2; 3];
     d_weathercode := [0; 61; 100];
     d_windspeed_10m_max := [5; 6; 7];
     d_winddirection_10m_dominant := [90; 180; 270] |}%Z.

(** A single day; the other arrays are empty. *)
Definition daily_single : daily_raw Z :=
  {| d_time := ["D1"];
     d_temperature_2m_max := [];
     d_temperature_2m_min := [];
     d_precipitation_sum := [];
     d_weathercode := [];
     d_windspeed_10m_max := [];
     d_winddirection_10m_dominant := [] |}.

Definition raw_ok : raw_forecast Z :=
  {| raw_daily := daily_ok; raw_hourly := hourly_ok |}.

Definition raw_single : raw_forecast Z :=
  {| raw_daily := daily_single; raw_hourly := hourly_ok |}.

Definition raw_same_stamp : raw_forecast Z :=
  {| raw_daily := daily_same_stamp; raw_hourly := hourly_same_stamp |}.

Definition raw_short : raw_forecast Z :=
  {| raw_daily := daily_ok; raw_hourly := hourly_short |}.

(** A geocoder that knows one place. *)
Definition geocode_berlin (place : string) : option (Z * Z) :=
  if bool_decide (place = "Berlin, Germany") then Some (52, 13)%Z else None.

(** Midnight in Berlin, a provider that answers with [raw_ok]. *)
Definition world_ok : world Z :=
  {| geocode := geocode_berlin;
     open_meteo := fun _ _ => Return raw_ok;
     berlin_hour := 0 |}.

(** The same, but the provider's hourly arrays are too short. *)
Definition world_short : world Z :=
  {| geocode := geocode_berlin;
     open_meteo := fun _ _ => Return raw_short;
     berlin_hour := 0 |}.

(** Three days whose arrays other than [time] hold a single entry. *)
Definition daily_ragged : daily_raw Z :=
  {| d_time := ["D1"; "D2"; "D3"];
     d_temperature_2m_max := [21];
     d_temperature_2m_min := [11];
     d_precipitation_sum := [1];
     d_weathercode := [0];
     d_windspeed_10m_max := [5];
     d_winddirection_10m_dominant := [90] |}%Z.

(** [daily_ok] with another last entry in every array. *)
Definition daily_other_last : daily_raw Z :=
  {| d_time := ["D1"; "D2"; "D9"];
     d_temperature_2m_max := [21; 22; 99];
     d_temperature_2m_min := [11; 12; 99];
     d_precipitation_sum := [1; 2; 99];
     d_weathercode := [0; 61; 99];
     d_windspeed_10m_max := [5; 6; 99];
     d_winddirection_10m_dominant := [90; 180; 99] |}%Z.

Definition raw_ragged : raw_forecast Z :=
  {| raw_daily := daily_ragged; raw_hourly := hourly_ok |}.

Definition raw_other_last : raw_forecast Z :=
  {| raw_daily := daily_other_last; raw_hourly := hourly_ok |}.

(** A provider whose daily arrays are ragged. *)
Definition world_ragged : world Z :=
  {| geocode := geocode_berlin;
     open_meteo := fun _ _ => Return raw_ragged;
     berlin_hour := 0 |}.



(** One o'clock in Berlin: [hourly_ok] still has twelve entries left. *)
Definition world_one : world Z :=
  {| geocode := geocode_berlin;
     open_meteo := fun _ _ => Return raw_ok;
     berlin_hour := 1 |}.

(** Two o'clock in Berlin: [hourly_ok] has only eleven entries left. *)
Definition world_two : world Z :=
  {| geocode := geocode_berlin;
     open_meteo := fun _ _ => Return raw_ok;
     berlin_hour := 2 |}.

(** A geocoder that resolves every query. *)
Definition world_anywhere : world Z :=
  {| geocode := fun _ => Some (0, 0)%Z;
     open_meteo := fun _ _ => Return raw_ok;
     berlin_hour := 0 |}.

(** Query strings. *)
Definition args_berlin : gmap string string :=
  <["country" := "Germany"]> (<["city" := "Berlin"]> ∅).

Definition args_city_only : gmap string string :=
  <["city" := "Berlin"]> ∅.

Definition args_blank : gmap string string :=
  <["country" := ""]> (<["city" := ""]> ∅).

End Samples.

Import Weather Spec.

(** ** Dicts filled item by item *)

Section StoreAll.

Context {K V : Type} {Keq : EqDecision K} {Kcount : Countable K}.

Implicit Types (acc : gmap K V) (items : list (K * V)).

Lemma store_all_snoc acc items k v :
  store_all acc (items ++ [(k, v)]) = <[k := v]> (store_all acc items).
Proof. unfold store_all. by rewrite foldl_app. Qed.

Lemma lookup_store_all_notin acc items k :
  k ∉ items.*1 → store_all acc items !! k = acc !! k.
Proof.
  induction items as [|[k' v'] items IH] using rev_ind; [done|].
  rewrite fmap_app, elem_of_app, store_all_snoc. cbn. intros Hk.
  rewrite lookup_insert_ne by set_solver. apply IH. tauto.
Qed.

Lemma lookup_store_all_NoDup acc items k v :
  NoDup items.*1 → (k, v) ∈ items → store_all acc items !! k = Some v.
Proof.
  induction items as [|[k' v'] items IH] using rev_ind; [by rewrite elem_of_nil|].
  rewrite fmap_app, NoDup_app, elem_of_app, store_all_snoc. cbn.
  intros (Hnd & Hfresh & _) [Hin|Hin].
  - assert (k ≠ k').
    { intros ->. apply (Hfresh k'); [|set_solver].
      apply list_elem_of_fmap. by exists (k', v). }
    rewrite lookup_insert_ne by done. by apply IH.
  - apply list_elem_of_singleton in Hin. simplify_eq. apply lookup_insert_eq.
Qed.

Lemma dom_store_all acc items :
  dom (store_all acc items) = dom acc ∪ list_to_set items.*1.
Proof.
  induction items as [|[k' v'] items IH] using rev_ind.
  - cbn. set_solver.
  - rewrite store_all_snoc, dom_insert_L, IH, fmap_app, list_to_set_app_L. cbn.
    set_solver.
Qed.

Lemma size_store_all_empty items :
  NoDup items.*1 → size (store_all (∅ : gmap K V) items) = length items.
Proof.
  intros Hnd. rewrite <- size_dom, dom_store_all, dom_empty_L, (left_id_L ∅ (∪)).
  rewrite size_list_to_set by done. by rewrite length_fmap.
Qed.

End StoreAll.

(** ** The weather-code translator *)

Lemma weather_dict_keys : weather_dict_items.*1 = seqZ 0 100.
Proof. vm_compute. reflexivity. Qed.

Lemma translate_listed code descr :
  (code, descr) ∈ weather_dict_items → _get_string_for_weather_code code = descr.
Proof.
  intros Hin. unfold _get_string_for_weather_code, dict_get, weather_dict, dict_literal.
  rewrite (lookup_store_all_NoDup ∅ _ code descr); [done| |done].
  rewrite weather_dict_keys. apply NoDup_seqZ.
Qed.

Lemma translate_unlisted code :
  (code < 0 ∨ 99 < code)%Z → _get_string_for_weather_code code = "unbekannt".
Proof.
  intros Hout. unfold _get_string_for_weather_code, dict_get, weather_dict, dict_literal.
  rewrite lookup_store_all_notin; [by rewrite lookup_empty|].
  rewrite weather_dict_keys, elem_of_seqZ. lia.
Qed.

Lemma listed_codes code :
  (0 ≤ code ≤ 99)%Z → ∃ descr, (code, descr) ∈ weather_dict_items.
Proof.
  intros Hin.
  assert (code ∈ weather_dict_items.*1) as Hk.
  { rewrite weather_dict_keys, elem_of_seqZ. lia. }
  apply list_elem_of_fmap in Hk as ([k d] & -> & Hkd). by exists d.
Qed.

(** C4: the translator is a total function on the integers; the keys of
    its table are exactly 0 .. 99, every listed code is translated to the
    description the table gives it, and every other integer (-1, 100 and
    9999 among them) to the sentinel "unbekannt". *)
Theorem translator_total :
  weather_dict_items.*1 = seqZ 0 100 ∧
  (∀ code : Z, (0 ≤ code ≤ 99)%Z →
     ∃ descr, (code, descr) ∈ weather_dict_items ∧
              _get_string_for_weather_code code = descr) ∧
  (∀ code : Z, (code < 0 ∨ 99 < code)%Z →
     _get_string_for_weather_code code = "unbekannt") ∧
  _get_string_for_weather_code (-1) = "unbekannt" ∧
  _get_string_for_weather_code 100 = "unbekannt" ∧
  _get_string_for_weather_code 9999 = "unbekannt".
Proof.
  split; [apply weather_dict_keys|]. split.
  { intros code Hin. destruct (listed_codes code Hin) as [descr Hd].
    exists descr. split; [done|]. by apply translate_listed. }
  split; [apply translate_unlisted|].
  repeat split; apply translate_unlisted; lia.
Qed.

Lemma translator_total_witness :
  _get_string_for_weather_code 61 = "Leichter Regen, anhaltend" ∧
  _get_string_for_weather_code 9999 = "unbekannt".
Proof.
  destruct translator_total as (_ & Hin & Hout & _).
  split.
  - destruct (Hin 61%Z ltac:(lia)) as (descr & _ & <-). vm_compute. reflexivity.
  - apply Hout. lia.
Defined.

(** ** Loops that fill a dict from parallel arrays *)

Section Passes.

Context {V : Type}.

Variable time : list string.
Variable item_at : nat → option (string * V).
Variable body : nat → gmap string V → outcome (gmap string V).

Hypothesis item_key : ∀ i kv, item_at i = Some kv → time !! i = Some kv.1.
Hypothesis body_stores : ∀ i acc,
  body i acc = match item_at i with
               | Some kv => Return (<[kv.1 := kv.2]> acc)
               | None => Raise index_error
               end.

Lemma for_each_stores (xs : list nat) (acc : gmap string V) :
  for_each xs body acc = match mapM item_at xs with
                         | Some items => Return (store_all acc items)
                         | None => Raise index_error
                         end.
Proof.
  revert acc. induction xs as [|x xs IH]; intros acc; [done|].
  cbn. rewrite body_stores. destruct (item_at x) as [kv|]; cbn; [|done].
  rewrite IH. by destruct (mapM item_at xs).
Qed.

Lemma for_each_raises (xs : list nat) (acc : gmap string V) (e : exn) :
  for_each xs body acc = Raise e → e = index_error.
Proof.
  rewrite for_each_stores. destruct (mapM item_at xs); congruence.
Qed.

Lemma for_each_index_error (xs : list nat) (acc : gmap string V) (i : nat) :
  i ∈ xs → item_at i = None → for_each xs body acc = Raise index_error.
Proof.
  intros Hin Hnone. rewrite for_each_stores.
  assert (mapM item_at xs = None) as ->; [|done].
  apply mapM_None, Exists_exists. eauto.
Qed.

Lemma items_lookup (start n : nat) (items : list (string * V)) (j : nat) :
  mapM item_at (seq start n) = Some items → j < n →
  ∃ kv, items !! j = Some kv ∧ item_at (start + j) = Some kv.
Proof.
  intros Hitems%mapM_Some_1 Hj.
  destruct (Forall2_lookup_l _ _ _ j (start + j) Hitems) as (kv & ? & ?); eauto.
  by apply lookup_seq_lt.
Qed.

Lemma items_keys (start n : nat) (items : list (string * V)) :
  mapM item_at (seq start n) = Some items → items.*1 = take n (drop start time).
Proof.
  intros Hitems. pose proof (length_mapM _ _ _ Hitems) as Hlen.
  rewrite length_seq in Hlen. apply list_eq. intros j.
  rewrite list_lookup_fmap. destruct (decide (j < n)) as [Hj|Hj].
  - destruct (items_lookup start n items j Hitems Hj) as (kv & -> & Hkv).
    rewrite lookup_take_lt, lookup_drop by done.
    by rewrite (item_key _ _ Hkv).
  - rewrite (lookup_ge_None_2 items), (lookup_ge_None_2 (take n _)); [done| |lia].
    rewrite length_take. lia.
Qed.

(** A pass over [start, start + n) whose indices all exist and whose
    timestamps are pairwise distinct returns a dict with one key per
    index. *)
Lemma pass_distinct (start n : nat) :
  (∀ i, start ≤ i < start + n → is_Some (item_at i)) →
  NoDup (take n (drop start time)) →
  ∃ m, for_each (seq start n) body ∅ = Return m ∧
       size m = n ∧
       dom m = list_to_set (take n (drop start time)) ∧
       ∀ i, start ≤ i < start + n →
            ∃ kv, item_at i = Some kv ∧ m !! kv.1 = Some kv.2.
Proof.
  intros Hall Hnd. rewrite for_each_stores.
  destruct (mapM item_at (seq start n)) as [items|] eqn:Hitems.
  - pose proof (items_keys _ _ _ Hitems) as Hkeys. rewrite <- Hkeys in *.
    exists (store_all ∅ items). split; [done|]. split; [|split].
    + rewrite size_store_all_empty by done.
      apply length_mapM in Hitems. by rewrite length_seq in Hitems.
    + rewrite dom_store_all, dom_empty_L. set_solver.
    + intros i Hi.
      destruct (items_lookup start n items (i - start) Hitems) as ([k v] & Hj & Hkv);
        [lia|].
      replace (start + (i - start)) with i in Hkv by lia.
      exists (k, v). split; [done|]. apply lookup_store_all_NoDup; [done|].
      by eapply list_elem_of_lookup_2.
  - apply mapM_None, Exists_exists in Hitems as (i & Hi%elem_of_seq & Hnone).
    destruct (Hall i Hi) as [? ?]. congruence.
Qed.

Lemma pass_returns (xs : list nat) (acc : gmap string V) :
  (∀ i, i ∈ xs → is_Some (item_at i)) →
  ∃ m, for_each xs body acc = Return m.
Proof.
  intros Hall. rewrite for_each_stores.
  destruct (mapM_is_Some_2 item_at xs) as [items ->]; [|eauto].
  apply Forall_forall. intros i Hi. by apply Hall.
Qed.

End Passes.

(** ** The two passes of the cleaner *)

Section Cleaner.

Context {num : Type}.

Implicit Types (h : hourly_raw num) (d : daily_raw num) (raw : raw_forecast num).

Lemma hourly_body_stores h (i : nat) (acc : gmap string (hourly_entry num)) :
  hourly_body h i acc = match hourly_item_at h i with
                        | Some kv => Return (<[kv.1 := kv.2]> acc)
                        | None => Raise index_error
                        end.
Proof.
  unfold hourly_body, hourly_item_at, getitem.
  destruct (h_temperature_2m h !! i); cbn; [|done].
  destruct (h_precipitation h !! i); cbn; [|done].
  destruct (h_weathercode h !! i); cbn; [|done].
  destruct (h_windspeed_10m h !! i); cbn; [|done].
  destruct (h_winddirection_10m h !! i); cbn; [|done].
  destruct (h_pressure_msl h !! i); cbn; [|done].
  destruct (h_relativehumidity_2m h !! i); cbn; [|done].
  by destruct (h_time h !! i).
Qed.

Lemma daily_body_stores d (i : nat) (acc : gmap string (daily_entry num)) :
  daily_body d i acc = match daily_item_at d i with
                       | Some kv => Return (<[kv.1 := kv.2]> acc)
                       | None => Raise index_error
                       end.
Proof.
  unfold daily_body, daily_item_at, getitem.
  destruct (d_temperature_2m_max d !! i); cbn; [|done].
  destruct (d_temperature_2m_min d !! i); cbn; [|done].
  destruct (d_precipitation_sum d !! i); cbn; [|done].
  destruct (d_weathercode d !! i); cbn; [|done].
  destruct (d_windspeed_10m_max d !! i); cbn; [|done].
  destruct (d_winddirection_10m_dominant d !! i); cbn; [|done].
  by destruct (d_time d !! i).
Qed.

Lemma hourly_item_inv h (i : nat) (kv : string * hourly_entry num) :
  hourly_item_at h i = Some kv →
  h_time h !! i = Some kv.1 ∧ hourly_entry_from h i kv.2.
Proof.
  unfold hourly_item_at, hourly_entry_from. intros Hitem.
  destruct (h_temperature_2m h !! i); [|done].
  destruct (h_precipitation h !! i); [|done].
  destruct (h_weathercode h !! i) as [code|]; [|done].
  destruct (h_windspeed_10m h !! i); [|done].
  destruct (h_winddirection_10m h !! i); [|done].
  destruct (h_pressure_msl h !! i); [|done].
  destruct (h_relativehumidity_2m h !! i); [|done].
  destruct (h_time h !! i); [|done].
  cbn in Hitem. injection Hitem as <-. cbn. repeat split; eauto.
Qed.

Lemma daily_item_inv d (i : nat) (kv : string * daily_entry num) :
  daily_item_at d i = Some kv →
  d_time d !! i = Some kv.1 ∧ daily_entry_from d i kv.2.
Proof.
  unfold daily_item_at, daily_entry_from. intros Hitem.
  destruct (d_temperature_2m_max d !! i); [|done].
  destruct (d_temperature_2m_min d !! i); [|done].
  destruct (d_precipitation_sum d !! i); [|done].
  destruct (d_weathercode d !! i) as [code|]; [|done].
  destruct (d_windspeed_10m_max d !! i); [|done].
  destruct (d_winddirection_10m_dominant d !! i); [|done].
  destruct (d_time d !! i); [|done].
  cbn in Hitem. injection Hitem as <-. cbn. repeat split; eauto.
Qed.

Lemma hourly_item_key h (i : nat) (kv : string * hourly_entry num) :
  hourly_item_at h i = Some kv → h_time h !! i = Some kv.1.
Proof. intros Hitem. by apply hourly_item_inv. Qed.

Lemma daily_item_key d (i : nat) (kv : string * daily_entry num) :
  daily_item_at d i = Some kv → d_time d !! i = Some kv.1.
Proof. intros Hitem. by apply daily_item_inv. Qed.

Lemma hourly_item_is_Some h (n i : nat) :
  hourly_lengths_ge n h → i < n → is_Some (hourly_item_at h i).
Proof.
  intros (H1 & H2 & H3 & H4 & H5 & H6 & H7 & H8) Hi. unfold hourly_item_at.
  destruct (lookup_lt_is_Some_2 (h_temperature_2m h) i) as [? ->]; [lia|].
  destruct (lookup_lt_is_Some_2 (h_precipitation h) i) as [? ->]; [lia|].
  destruct (lookup_lt_is_Some_2 (h_weathercode h) i) as [? ->]; [lia|].
  destruct (lookup_lt_is_Some_2 (h_windspeed_10m h) i) as [? ->]; [lia|].
  destruct (lookup_lt_is_Some_2 (h_winddirection_10m h) i) as [? ->]; [lia|].
  destruct (lookup_lt_is_Some_2 (h_pressure_msl h) i) as [? ->]; [lia|].
  destruct (lookup_lt_is_Some_2 (h_relativehumidity_2m h) i) as [? ->]; [lia|].
  destruct (lookup_lt_is_Some_2 (h_time h) i) as [? ->]; [lia|].
  cbn. eauto.
Qed.

Lemma daily_item_is_Some d (i : nat) :
  daily_lengths_match d → i < length (d_time d) → is_Some (daily_item_at d i).
Proof.
  intros (H1 & H2 & H3 & H4 & H5 & H6) Hi. unfold daily_item_at.
  destruct (lookup_lt_is_Some_2 (d_temperature_2m_max d) i) as [? ->]; [lia|].
  destruct (lookup_lt_is_Some_2 (d_temperature_2m_min d) i) as [? ->]; [lia|].
  destruct (lookup_lt_is_Some_2 (d_precipitation_sum d) i) as [? ->]; [lia|].
  destruct (lookup_lt_is_Some_2 (d_weathercode d) i) as [? ->]; [lia|].
  destruct (lookup_lt_is_Some_2 (d_windspeed_10m_max d) i) as [? ->]; [lia|].
  destruct (lookup_lt_is_Some_2 (d_winddirection_10m_dominant d) i) as [? ->]; [lia|].
  destruct (lookup_lt_is_Some_2 (d_time d) i) as [? ->]; [lia|].
  cbn. eauto.
Qed.

(** An array that is too short has no entry at the last index of the
    hourly range. *)
Lemma hourly_item_None h (n : nat) :
  hourly_some_shorter (S n) h → hourly_item_at h n = None.
Proof.
  unfold hourly_item_at.
  intros [H|[H|[H|[H|[H|[H|[H|H]]]]]]];
    match type of H with
    | length ?l < _ => assert (l !! n = None) as Hnone by (apply lookup_ge_None_2; lia)
    end;
    rewrite Hnone;
    repeat match goal with
      | |- context [mbind _ (?l !! n)] => destruct (l !! n); cbn; try done
      end.
Qed.

Lemma hourly_pass_raises (current_hour : nat) h (e : exn) :
  hourly_pass current_hour h = Raise e → e = index_error.
Proof. apply (for_each_raises (hourly_item_at h)), hourly_body_stores. Qed.

Lemma daily_pass_raises d (e : exn) :
  daily_pass d = Raise e → e = index_error.
Proof. apply (for_each_raises (daily_item_at d)), daily_body_stores. Qed.

Lemma clean_unfold (current_hour : nat) raw :
  _clean_weather_data current_hour raw =
  match daily_pass (raw_daily raw) with
  | Return dly =>
      match hourly_pass current_hour (raw_hourly raw) with
      | Return hly => Return {| hourly := hly; daily := dly;
                                city := None; country := None; ai_text := None |}
      | Raise e => Raise e
      end
  | Raise e => Raise e
  end.
Proof.
  unfold _clean_weather_data.
  destruct (daily_pass (raw_daily raw)); [|done].
  by destruct (hourly_pass current_hour (raw_hourly raw)).
Qed.

Lemma clean_raises (current_hour : nat) raw (e : exn) :
  _clean_weather_data current_hour raw = Raise e → e = index_error.
Proof.
  rewrite clean_unfold.
  destruct (daily_pass (raw_daily raw)) as [dly|e1] eqn:Hd.
  - destruct (hourly_pass current_hour (raw_hourly raw)) as [hly|e2] eqn:Hh; [done|].
    intros [= <-]. by eapply hourly_pass_raises.
  - intros [= <-]. by eapply daily_pass_raises.
Qed.

Lemma hourly_pass_short (current_hour : nat) h :
  hourly_some_shorter (current_hour + 12) h →
  hourly_pass current_hour h = Raise index_error.
Proof.
  intros Hshort.
  apply (for_each_index_error (hourly_item_at h) _ (hourly_body_stores h) _ _
           (current_hour + 11)).
  - apply elem_of_seq. lia.
  - apply hourly_item_None. by replace (S (current_hour + 11)) with (current_hour + 12) by lia.
Qed.

Lemma clean_short (current_hour : nat) raw :
  hourly_some_shorter (current_hour + 12) (raw_hourly raw) →
  _clean_weather_data current_hour raw = Raise index_error.
Proof.
  intros Hshort. rewrite clean_unfold.
  destruct (daily_pass (raw_daily raw)) as [dly|e1] eqn:Hd.
  - by rewrite hourly_pass_short.
  - by rewrite (daily_pass_raises _ _ Hd).
Qed.

End Cleaner.

(** ** Properties of the cleaner *)

Section CleanerProperties.

Context {num : Type}.

Implicit Types (raw : raw_forecast num).

(** C1, as amended: when every hourly array has at least
    [current_hour + 12] entries and the twelve timestamps
    [hourly.time[current_hour .. current_hour + 11]] are pairwise
    distinct, the hourly pass returns a mapping with exactly 12 keys,
    namely those timestamps, and the record under [hourly.time[i]] holds
    the values found at index [i] of the hourly arrays (the weather code
    translated); this mapping is the [hourly] part of what the cleaning
    operation returns. *)
Theorem hourly_pass_twelve_keys (current_hour : nat) raw :
  hourly_lengths_ge (current_hour + 12) (raw_hourly raw) →
  NoDup (take 12 (drop current_hour (h_time (raw_hourly raw)))) →
  ∃ m : gmap string (hourly_entry num),
    hourly_pass current_hour (raw_hourly raw) = Return m ∧
    size m = 12 ∧
    dom m = list_to_set (take 12 (drop current_hour (h_time (raw_hourly raw)))) ∧
    (∀ i, current_hour ≤ i < current_hour + 12 →
       ∃ key e, h_time (raw_hourly raw) !! i = Some key ∧
                m !! key = Some e ∧
                hourly_entry_from (raw_hourly raw) i e) ∧
    (∀ dly, daily_pass (raw_daily raw) = Return dly →
       ∃ cd, _clean_weather_data current_hour raw = Return cd ∧
             hourly cd = m ∧ daily cd = dly).
Proof.
  intros Hlen Hnd.
  destruct (pass_distinct (h_time (raw_hourly raw)) (hourly_item_at (raw_hourly raw))
              (hourly_body (raw_hourly raw)) (hourly_item_key _) (hourly_body_stores _)
              current_hour 12) as (m & Hm & Hsize & Hdom & Hget).
  - intros i Hi. apply (hourly_item_is_Some _ (current_hour + 12)); [done|lia].
  - done.
  - exists m. unfold hourly_pass. repeat split; try done.
    + intros i Hi. destruct (Hget i Hi) as ([key e] & Hitem & Hlook).
      apply hourly_item_inv in Hitem as [Hkey Hfrom]. by exists key, e.
    + intros dly Hd. rewrite clean_unfold, Hd. unfold hourly_pass. rewrite Hm. eauto.
Qed.

(** C3, as amended: when the daily arrays are as long as [daily.time]
    (of length [N]) and the timestamps [daily.time[0 .. N-2]] are
    pairwise distinct, the daily pass returns a mapping with exactly
    [N - 1] keys (none when [N] is 0), namely those timestamps, the last
    raw entry being left out, and the record under [daily.time[i]] holds
    the values found at index [i] of the daily arrays (the weather code
    translated); this mapping is the [daily] part of what the cleaning
    operation returns. *)
Theorem daily_pass_drops_last raw :
  daily_lengths_match (raw_daily raw) →
  NoDup (take (length (d_time (raw_daily raw)) - 1) (d_time (raw_daily raw))) →
  ∃ m : gmap string (daily_entry num),
    daily_pass (raw_daily raw) = Return m ∧
    size m = length (d_time (raw_daily raw)) - 1 ∧
    dom m = list_to_set (take (length (d_time (raw_daily raw)) - 1)
                           (d_time (raw_daily raw))) ∧
    (∀ i, i < length (d_time (raw_daily raw)) - 1 →
       ∃ key e, d_time (raw_daily raw) !! i = Some key ∧
                m !! key = Some e ∧
                daily_entry_from (raw_daily raw) i e) ∧
    (∀ current_hour hly,
       hourly_pass current_hour (raw_hourly raw) = Return hly →
       ∃ cd, _clean_weather_data current_hour raw = Return cd ∧
             daily cd = m ∧ hourly cd = hly).
Proof.
  intros Hlen Hnd.
  destruct (pass_distinct (d_time (raw_daily raw)) (daily_item_at (raw_daily raw))
              (daily_body (raw_daily raw)) (daily_item_key _) (daily_body_stores _)
              0 (length (d_time (raw_daily raw)) - 1)) as (m & Hm & Hsize & Hdom & Hget).
  - intros i Hi. apply daily_item_is_Some; [done|lia].
  - done.
  - exists m. unfold daily_pass. repeat split; try done.
    + intros i Hi. destruct (Hget i ltac:(lia)) as ([key e] & Hitem & Hlook).
      apply daily_item_inv in Hitem as [Hkey Hfrom]. by exists key, e.
    + intros current_hour hly Hh. rewrite clean_unfold. unfold daily_pass.
      rewrite Hm, Hh. eauto.
Qed.

(** C9: with zero or one daily timestamps the daily pass succeeds and
    its mapping is empty, whatever the other daily arrays hold; so is the
    [daily] part of whatever the cleaning operation returns. *)
Theorem daily_pass_at_most_one raw :
  length (d_time (raw_daily raw)) ≤ 1 →
  daily_pass (raw_daily raw) = Return ∅ ∧
  ∀ current_hour cd,
    _clean_weather_data current_hour raw = Return cd → daily cd = ∅.
Proof.
  intros Hlen.
  assert (daily_pass (raw_daily raw) = Return ∅) as Hd.
  { unfold daily_pass.
    by replace (length (d_time (raw_daily raw)) - 1) with 0 by lia. }
  split; [done|]. intros current_hour cd. rewrite clean_unfold, Hd.
  destruct (hourly_pass current_hour (raw_hourly raw)); [|done].
  by intros [= <-].
Qed.

End CleanerProperties.

Lemma hourly_pass_twelve_keys_witness :
  hourly_lengths_ge (0 + 12) (raw_hourly Samples.raw_ok) ∧
  NoDup (take 12 (drop 0 (h_time (raw_hourly Samples.raw_ok)))) ∧
  ∃ m, hourly_pass 0 (raw_hourly Samples.raw_ok) = Return m ∧ size m = 12.
Proof.
  assert (hourly_lengths_ge (0 + 12) (raw_hourly Samples.raw_ok)) as Hlen.
  { vm_compute. repeat split; lia. }
  assert (NoDup (take 12 (drop 0 (h_time (raw_hourly Samples.raw_ok))))) as Hnd.
  { compute_done. }
  split; [exact Hlen|]. split; [exact Hnd|].
  destruct (hourly_pass_twelve_keys 0 Samples.raw_ok Hlen Hnd) as (m & Hm & Hsize & _).
  exists m. split; [exact Hm | exact Hsize].
Defined.

(** C1 as stated fails when timestamps repeat: twelve hours that all
    carry the timestamp "T00" satisfy the length condition, yet the
    hourly mapping has a single key. *)
Lemma hourly_same_stamp_single_key :
  hourly_lengths_ge (0 + 12) (raw_hourly Samples.raw_same_stamp) ∧
  (∃ m, hourly_pass 0 (raw_hourly Samples.raw_same_stamp) = Return m ∧ size m = 1) ∧
  ¬ (∃ m, hourly_pass 0 (raw_hourly Samples.raw_same_stamp) = Return m ∧ size m = 12).
Proof.
  assert (∃ m, hourly_pass 0 (raw_hourly Samples.raw_same_stamp) = Return m ∧ size m = 1)
    as Hone.
  { eexists. split; vm_compute; reflexivity. }
  split; [vm_compute; repeat split; lia|]. split; [exact Hone|].
  destruct Hone as (m1 & Hm1 & Hs1). intros (m & Hm & Hs).
  rewrite Hm1 in Hm. injection Hm as ->. lia.
Qed.

Lemma daily_pass_drops_last_witness :
  daily_lengths_match (raw_daily Samples.raw_ok) ∧
  NoDup (take (length (d_time (raw_daily Samples.raw_ok)) - 1)
           (d_time (raw_daily Samples.raw_ok))) ∧
  ∃ m, daily_pass (raw_daily Samples.raw_ok) = Return m ∧
       size m = 2 ∧ dom m = {["D1"; "D2"]}.
Proof.
  assert (daily_lengths_match (raw_daily Samples.raw_ok)) as Hlen.
  { vm_compute. repeat split. }
  assert (NoDup (take (length (d_time (raw_daily Samples.raw_ok)) - 1)
                   (d_time (raw_daily Samples.raw_ok)))) as Hnd.
  { compute_done. }
  split; [exact Hlen|]. split; [exact Hnd|].
  destruct (daily_pass_drops_last Samples.raw_ok Hlen Hnd) as (m & Hm & Hsize & Hdom & _).
  exists m. split; [exact Hm|]. split; [exact Hsize|].
  rewrite Hdom. vm_compute. reflexivity.
Defined.

(** C3 as stated fails when timestamps repeat: three days whose first
    two carry the timestamp "D1" have arrays of matching length 3, yet
    the daily mapping has one key instead of two. *)
Lemma daily_same_stamp_single_key :
  daily_lengths_match (raw_daily Samples.raw_same_stamp) ∧
  length (d_time (raw_daily Samples.raw_same_stamp)) = 3 ∧
  (∃ m, daily_pass (raw_daily Samples.raw_same_stamp) = Return m ∧ size m = 1) ∧
  ¬ (∃ m, daily_pass (raw_daily Samples.raw_same_stamp) = Return m ∧ size m = 3 - 1).
Proof.
  assert (∃ m, daily_pass (raw_daily Samples.raw_same_stamp) = Return m ∧ size m = 1)
    as Hone.
  { eexists. split; vm_compute; reflexivity. }
  split; [vm_compute; repeat split|]. split; [reflexivity|]. split; [exact Hone|].
  destruct Hone as (m1 & Hm1 & Hs1). intros (m & Hm & Hs).
  rewrite Hm1 in Hm. injection Hm as ->. simpl in Hs. lia.
Qed.

Lemma daily_pass_at_most_one_witness :
  length (d_time (raw_daily Samples.raw_single)) ≤ 1 ∧
  daily_pass (raw_daily Samples.raw_single) = Return ∅.
Proof.
  assert (length (d_time (raw_daily Samples.raw_single)) ≤ 1) as Hlen.
  { vm_compute. lia. }
  split; [exact Hlen|].
  exact (proj1 (daily_pass_at_most_one Samples.raw_single Hlen)).
Defined.

(** ** Strings *)

Lemma string_app_cons (a : Ascii.ascii) (s t : string) :
  String a s +:+ t = String a (s +:+ t).
Proof. reflexivity. Qed.

Lemma string_app_nil_r (s : string) : s +:+ "" = s.
Proof. induction s as [|a s IH]; [done|]. by rewrite string_app_cons, IH. Qed.

Lemma string_app_assoc (s t u : string) : (s +:+ t) +:+ u = s +:+ (t +:+ u).
Proof. induction s as [|a s IH]; [done|]. by rewrite !string_app_cons, IH. Qed.

Lemma contains_middle (pre sub post : string) : contains (pre +:+ sub +:+ post) sub.
Proof. by exists pre, post. Qed.

Lemma contains_end (pre sub : string) : contains (pre +:+ sub) sub.
Proof. exists pre, "". by rewrite string_app_nil_r. Qed.

(** ** The service *)

Section ServiceProperties.

Context {num : Type}.

Implicit Types (w : world num) (raw : raw_forecast num) (env : envelope num).

Lemma get_forecast_not_found w (city_arg country_arg : string) :
  geocode w (city_arg +:+ ", " +:+ country_arg) = None →
  get_forecast w city_arg country_arg =
  Return (failure (not_found_detail city_arg country_arg), 400%Z).
Proof.
  intros Hgeo. unfold get_forecast, _get_coordinates_for_city. by rewrite Hgeo.
Qed.

Lemma get_forecast_found w (city_arg country_arg : string) (lat lon : num) :
  geocode w (city_arg +:+ ", " +:+ country_arg) = Some (lat, lon) →
  get_forecast w city_arg country_arg =
  match open_meteo w lat lon with
  | Raise e => Raise e
  | Return raw =>
      match _clean_weather_data (berlin_hour w) raw with
      | Raise e => Return (failure (detail e), 500%Z)
      | Return cleaned =>
          Return ({| status := "success";
                     message := "The weather data was successfully retrieved";
                     data := Forecast {| hourly := hourly cleaned;
                                         daily := daily cleaned;
                                         city := Some city_arg;
                                         country := Some country_arg;
                                         ai_text := Some "" |} |}, 200%Z)
      end
  end.
Proof.
  intros Hgeo. unfold get_forecast, _get_coordinates_for_city, _get_weather_data.
  rewrite Hgeo. destruct (open_meteo w lat lon) as [raw|e]; [|done]. cbn.
  by destruct (_clean_weather_data (berlin_hour w) raw).
Qed.

(** Every way a call of the service can end. *)
Lemma get_forecast_cases w (city_arg country_arg : string) :
  get_forecast w city_arg country_arg =
    Return (failure (not_found_detail city_arg country_arg), 400%Z) ∨
  (∃ e, get_forecast w city_arg country_arg = Raise e) ∨
  get_forecast w city_arg country_arg =
    Return (failure "list index out of range", 500%Z) ∨
  (∃ cd, get_forecast w city_arg country_arg =
           Return ({| status := "success";
                      message := "The weather data was successfully retrieved";
                      data := Forecast cd |}, 200%Z) ∧
         city cd = Some city_arg ∧ country cd = Some country_arg ∧
         ai_text cd = Some "").
Proof.
  destruct (geocode w (city_arg +:+ ", " +:+ country_arg)) as [[lat lon]|] eqn:Hgeo.
  - rewrite (get_forecast_found _ _ _ _ _ Hgeo).
    destruct (open_meteo w lat lon) as [raw|e]; [|by eauto].
    destruct (_clean_weather_data (berlin_hour w) raw) as [cleaned|e] eqn:Hclean.
    + do 3 right. eexists. split; [done|]. done.
    + apply clean_raises in Hclean as ->. auto.
  - left. by apply get_forecast_not_found.
Qed.

End ServiceProperties.

Section ServiceClaims.

Context {num : Type}.

Implicit Types (w : world num) (raw : raw_forecast num) (env : envelope num).

(** C2: when the place is resolved and the provider returns a forecast in
    which some array read by the hourly pass has fewer than
    [current_hour + 12] entries, the cleaning operation raises the
    out-of-range [IndexError] (it returns no mapping at all), and the
    service returns, rather than raises, the envelope with status
    "error", the text of that error as message, empty data, and code
    500. *)
Theorem short_hourly_is_error_500 w (city_arg country_arg : string)
    (lat lon : num) raw :
  geocode w (city_arg +:+ ", " +:+ country_arg) = Some (lat, lon) →
  open_meteo w lat lon = Return raw →
  hourly_some_shorter (berlin_hour w + 12) (raw_hourly raw) →
  (∃ e, _clean_weather_data (berlin_hour w) raw = Raise e ∧
        kind e = IndexError ∧ detail e = "list index out of range") ∧
  get_forecast w city_arg country_arg =
    Return ({| status := "error";
               message := "list index out of range";
               data := EmptyObj |}, 500%Z).
Proof.
  intros Hgeo Hfetch Hshort. pose proof (clean_short _ _ Hshort) as Hclean.
  split; [by exists index_error|].
  by rewrite (get_forecast_found _ _ _ _ _ Hgeo), Hfetch, Hclean.
Qed.

(** C5: when the place is resolved and the provider returns a
    well-formed forecast with at least 13 hourly entries from the current
    hour onward, the service returns code 200 and an envelope with status
    "success", the fixed confirmation message, and data whose [city] and
    [country] are the inputs and whose [ai_text] is the empty string. *)
Theorem forecast_success w (city_arg country_arg : string) (lat lon : num) raw :
  geocode w (city_arg +:+ ", " +:+ country_arg) = Some (lat, lon) →
  open_meteo w lat lon = Return raw →
  well_formed raw →
  berlin_hour w + 13 ≤ length (h_time (raw_hourly raw)) →
  ∃ cd, get_forecast w city_arg country_arg =
          Return ({| status := "success";
                     message := "The weather data was successfully retrieved";
                     data := Forecast cd |}, 200%Z) ∧
        city cd = Some city_arg ∧
        country cd = Some country_arg ∧
        ai_text cd = Some "".
Proof.
  intros Hgeo Hfetch [Hd Hh] Hlen.
  rewrite (get_forecast_found _ _ _ _ _ Hgeo), Hfetch, clean_unfold.
  destruct (pass_returns (daily_item_at (raw_daily raw)) (daily_body (raw_daily raw))
              (daily_body_stores _) (seq 0 (length (d_time (raw_daily raw)) - 1)) ∅)
    as [dly Hdly].
  { intros i Hi%elem_of_seq. apply daily_item_is_Some; [done|lia]. }
  destruct (pass_returns (hourly_item_at (raw_hourly raw)) (hourly_body (raw_hourly raw))
              (hourly_body_stores _) (seq (berlin_hour w) 12) ∅) as [hly Hhly].
  { intros i Hi%elem_of_seq.
    apply (hourly_item_is_Some _ (berlin_hour w + 12)); [|lia].
    destruct Hh as (H1 & H2 & H3 & H4 & H5 & H6 & H7).
    unfold hourly_lengths_ge. rewrite H1, H2, H3, H4, H5, H6, H7. repeat split; lia. }
  unfold daily_pass, hourly_pass. rewrite Hdly, Hhly. eauto.
Qed.

(** C6: when the geocoder finds nothing for "city, country", the service
    returns code 400 and an envelope with status "error" whose message
    contains the city and the country as supplied. *)
Theorem not_found_is_error_400 w (city_arg country_arg : string) :
  geocode w (city_arg +:+ ", " +:+ country_arg) = None →
  ∃ env, get_forecast w city_arg country_arg = Return (env, 400%Z) ∧
         status env = "error" ∧
         message env = "We could not find the coordinates for the City: "
                       +:+ city_arg +:+ " in the Country: " +:+ country_arg ∧
         contains (message env) city_arg ∧
         contains (message env) country_arg.
Proof.
  intros Hgeo. rewrite (get_forecast_not_found _ _ _ Hgeo).
  eexists. split; [done|]. cbn. repeat split.
  - apply contains_middle.
  - unfold not_found_detail. rewrite <- !string_app_assoc. apply contains_end.
Qed.

(** C8: an envelope returned with code 400 or 500, or with status
    "error", has the empty object as data. *)
Theorem error_data_empty w (city_arg country_arg : string) env (code : Z) :
  get_forecast w city_arg country_arg = Return (env, code) →
  (code = 400%Z ∨ code = 500%Z ∨ status env = "error") →
  data env = EmptyObj.
Proof.
  intros Hret Herr.
  destruct (get_forecast_cases w city_arg country_arg)
    as [Hc|[[e Hc]|[Hc|(cd & Hc & _)]]];
    rewrite Hc in Hret; try done; injection Hret as <- <-; try done.
  by destruct Herr as [?|[?|?]].
Qed.

(** C10: every returned pair has status "success" or "error", status
    "success" exactly when the code is 200, code 400 or 500 when the
    status is "error", and a message that is not empty. *)
Theorem envelope_invariant w (city_arg country_arg : string) env (code : Z) :
  get_forecast w city_arg country_arg = Return (env, code) →
  (status env = "success" ∨ status env = "error") ∧
  (status env = "success" ↔ code = 200%Z) ∧
  (status env = "error" ↔ code = 400%Z ∨ code = 500%Z) ∧
  message env ≠ "".
Proof.
  intros Hret.
  destruct (get_forecast_cases w city_arg country_arg)
    as [Hc|[[e Hc]|[Hc|(cd & Hc & _)]]];
    rewrite Hc in Hret; try done; injection Hret as <- <-; cbn;
    (split; [auto|]); (split; [split; intros; done|]);
    (split; [split; [intros; auto; done | intros [?|?]; done]|]); done.
Qed.

(** C7: a request to [/get_forecast] with neither [city] nor [country]
    is answered with HTTP 400 and the JSON envelope with status "error",
    message "Missing parameters: city, country" and empty data. *)
Theorem missing_both_parameters w (args : gmap string string) :
  args !! "city" = None →
  args !! "country" = None →
  App.get_forecast w args =
    Return (App.jsonify {| status := "error";
                           message := "Missing parameters: city, country";
                           data := EmptyObj |}, 400%Z).
Proof.
  intros Hcity Hcountry. unfold App.get_forecast. rewrite Hcity, Hcountry.
  reflexivity.
Qed.

End ServiceClaims.

(** ** The properties at concrete requests *)

Lemma short_hourly_is_error_500_witness :
  geocode Samples.world_short ("Berlin" +:+ ", " +:+ "Germany") = Some (52, 13)%Z ∧
  open_meteo Samples.world_short 52%Z 13%Z = Return Samples.raw_short ∧
  hourly_some_shorter (berlin_hour Samples.world_short + 12)
    (raw_hourly Samples.raw_short) ∧
  get_forecast Samples.world_short "Berlin" "Germany" =
    Return ({| status := "error";
               message := "list index out of range";
               data := EmptyObj |}, 500%Z).
Proof.
  assert (hourly_some_shorter (berlin_hour Samples.world_short + 12)
            (raw_hourly Samples.raw_short)) as Hshort.
  { left. vm_compute. lia. }
  split; [reflexivity|]. split; [reflexivity|]. split; [exact Hshort|].
  exact (proj2 (short_hourly_is_error_500 Samples.world_short "Berlin" "Germany"
                  52%Z 13%Z Samples.raw_short eq_refl eq_refl Hshort)).
Defined.

Lemma forecast_success_witness :
  geocode Samples.world_ok ("Berlin" +:+ ", " +:+ "Germany") = Some (52, 13)%Z ∧
  open_meteo Samples.world_ok 52%Z 13%Z = Return Samples.raw_ok ∧
  well_formed Samples.raw_ok ∧
  berlin_hour Samples.world_ok + 13 ≤ length (h_time (raw_hourly Samples.raw_ok)) ∧
  ∃ cd, get_forecast Samples.world_ok "Berlin" "Germany" =
          Return ({| status := "success";
                     message := "The weather data was successfully retrieved";
                     data := Forecast cd |}, 200%Z) ∧
        city cd = Some "Berlin" ∧ country cd = Some "Germany" ∧ ai_text cd = Some "".
Proof.
  assert (well_formed Samples.raw_ok) as Hwf.
  { vm_compute. repeat split. }
  assert (berlin_hour Samples.world_ok + 13 ≤ length (h_time (raw_hourly Samples.raw_ok)))
    as Hlen.
  { vm_compute. lia. }
  split; [reflexivity|]. split; [reflexivity|]. split; [exact Hwf|]. split; [exact Hlen|].
  exact (forecast_success Samples.world_ok "Berlin" "Germany" 52%Z 13%Z Samples.raw_ok
           eq_refl eq_refl Hwf Hlen).
Defined.

Lemma not_found_is_error_400_witness :
  geocode Samples.world_ok ("Atlantis" +:+ ", " +:+ "Nowhere") = None ∧
  ∃ env, get_forecast Samples.world_ok "Atlantis" "Nowhere" = Return (env, 400%Z) ∧
         status env = "error" ∧
         contains (message env) "Atlantis" ∧
         contains (message env) "Nowhere".
Proof.
  split; [reflexivity|].
  destruct (not_found_is_error_400 Samples.world_ok "Atlantis" "Nowhere" eq_refl)
    as (env & Hret & Hstatus & _ & Hcity & Hcountry).
  exists env. repeat split; assumption.
Defined.

Lemma error_data_empty_witness :
  get_forecast Samples.world_short "Berlin" "Germany" =
    Return (failure "list index out of range", 500%Z) ∧
  data (failure (num:=Z) "list index out of range") = EmptyObj.
Proof.
  assert (get_forecast Samples.world_short "Berlin" "Germany" =
            Return (failure "list index out of range", 500%Z)) as Hret.
  { vm_compute. reflexivity. }
  split; [exact Hret|].
  apply (error_data_empty Samples.world_short "Berlin" "Germany" _ 500%Z Hret).
  right. left. reflexivity.
Defined.

Lemma envelope_invariant_witness :
  get_forecast Samples.world_ok "Atlantis" "Nowhere" =
    Return (failure (not_found_detail "Atlantis" "Nowhere"), 400%Z) ∧
  message (failure (num:=Z) (not_found_detail "Atlantis" "Nowhere")) ≠ "".
Proof.
  assert (get_forecast Samples.world_ok "Atlantis" "Nowhere" =
            Return (failure (not_found_detail "Atlantis" "Nowhere"), 400%Z)) as Hret.
  { vm_compute. reflexivity. }
  split; [exact Hret|].
  exact (proj2 (proj2 (proj2
    (envelope_invariant Samples.world_ok "Atlantis" "Nowhere" _ 400%Z Hret)))).
Defined.

Lemma missing_both_parameters_witness :
  (∅ : gmap string string) !! "city" = None ∧
  (∅ : gmap string string) !! "country" = None ∧
  App.get_forecast Samples.world_ok ∅ =
    Return (App.jsonify {| status := "error";
                           message := "Missing parameters: city, country";
                           data := EmptyObj |}, 400%Z).
Proof.
  split; [reflexivity|]. split; [reflexivity|].
  exact (missing_both_parameters Samples.world_ok ∅ eq_refl eq_refl).
Defined.

(** ** Further properties: dicts filled item by item *)

Section StoreAllOrder.

Context {K V : Type} {Keq : EqDecision K} {Kcount : Countable K}.

Implicit Types (acc : gmap K V) (items : list (K * V)).

Lemma store_all_app acc items1 items2 :
  store_all acc (items1 ++ items2) = store_all (store_all acc items1) items2.
Proof. unfold store_all. by rewrite foldl_app. Qed.

(** What a dict holds under a key was put there by one of the items,
    or was there before. *)
Lemma lookup_store_all_Some acc items k v :
  store_all acc items !! k = Some v → (k, v) ∈ items ∨ acc !! k = Some v.
Proof.
  induction items as [|[k' v'] items IH] using rev_ind; [by right|].
  rewrite store_all_snoc, elem_of_app. destruct (decide (k' = k)) as [->|Hne].
  - rewrite lookup_insert_eq. intros [= ->]. left. right. by apply list_elem_of_singleton.
  - rewrite lookup_insert_ne by done. intros Hk. destruct (IH Hk); auto.
Qed.

(** The last item stored under a key is the one the dict keeps. *)
Lemma lookup_store_all_last acc items1 items2 k v :
  k ∉ items2.*1 → store_all acc (items1 ++ (k, v) :: items2) !! k = Some v.
Proof.
  intros Hlater. rewrite store_all_app. change ((k, v) :: items2) with ([(k, v)] ++ items2).
  rewrite store_all_app, lookup_store_all_notin by done.
  apply lookup_insert_eq.
Qed.

Lemma size_store_all_le acc items :
  size (store_all acc items) ≤ size acc + length items.
Proof.
  induction items as [|[k' v'] items IH] using rev_ind; [cbn; lia|].
  rewrite store_all_snoc, length_app, map_size_insert. cbn.
  destruct (store_all acc items !! k'); cbn; lia.
Qed.

End StoreAllOrder.

Section PassesGeneral.

Context {V : Type}.

Variable time : list string.
Variable item_at : nat → option (string * V).
Variable body : nat → gmap string V → outcome (gmap string V).

Hypothesis item_key : ∀ i kv, item_at i = Some kv → time !! i = Some kv.1.
Hypothesis body_stores : ∀ i acc,
  body i acc = match item_at i with
               | Some kv => Return (<[kv.1 := kv.2]> acc)
               | None => Raise index_error
               end.

(** A pass returns exactly when every index of its range exists. *)
Lemma pass_returns_iff (xs : list nat) (acc : gmap string V) :
  (∃ m, for_each xs body acc = Return m) ↔ ∀ i, i ∈ xs → is_Some (item_at i).
Proof.
  split.
  - intros [m Hm]. rewrite (for_each_stores item_at body body_stores) in Hm.
    destruct (mapM item_at xs) as [items|] eqn:Hitems; [|done].
    intros i Hi.
    by apply (proj1 (Forall_forall _ _) (mapM_is_Some_1 item_at xs (mk_is_Some _ _ Hitems))).
  - apply (pass_returns item_at body body_stores).
Qed.

(** A pass over [start, start + n) whose indices all exist, without any
    assumption on the timestamps. *)
Lemma pass_general (start n : nat) :
  (∀ i, start ≤ i < start + n → is_Some (item_at i)) →
  ∃ m, for_each (seq start n) body ∅ = Return m ∧
       dom m = list_to_set (take n (drop start time)) ∧
       size m ≤ n ∧
       (0 < n → 0 < size m) ∧
       (∀ key v, m !! key = Some v →
          ∃ i, start ≤ i < start + n ∧ item_at i = Some (key, v)) ∧
       (∀ i kv, start ≤ i < start + n → item_at i = Some kv →
          (∀ j, i < j < start + n → time !! j ≠ Some kv.1) →
          m !! kv.1 = Some kv.2).
Proof.
  intros Hall. rewrite (for_each_stores item_at body body_stores).
  destruct (mapM item_at (seq start n)) as [items|] eqn:Hitems.
  2:{ apply mapM_None, Exists_exists in Hitems as (i & Hi%elem_of_seq & Hnone).
      destruct (Hall i Hi) as [? ?]. congruence. }
  pose proof (items_keys time item_at item_key _ _ _ Hitems) as Hkeys.
  pose proof (length_mapM _ _ _ Hitems) as Hlen. rewrite length_seq in Hlen.
  assert (∀ i kv, start ≤ i < start + n → item_at i = Some kv →
            items !! (i - start) = Some kv) as Hat.
  { intros i kv Hi Hkv.
    destruct (items_lookup item_at start n items (i - start) Hitems) as (kv' & Hj & Hkv');
      [lia|].
    replace (start + (i - start)) with i in Hkv' by lia. congruence. }
  exists (store_all ∅ items). split; [done|]. split; [|split; [|split; [|split]]].
  - rewrite dom_store_all, dom_empty_L, Hkeys. set_solver.
  - pose proof (size_store_all_le (∅ : gmap string V) items) as Hle.
    rewrite map_size_empty in Hle. lia.
  - intros Hn. destruct (Hall start ltac:(lia)) as [kv Hkv].
    assert (kv.1 ∈ dom (store_all (∅ : gmap string V) items)) as Hin.
    { rewrite dom_store_all, dom_empty_L. apply elem_of_union_r, elem_of_list_to_set.
      apply list_elem_of_fmap. exists kv. split; [done|].
      eapply list_elem_of_lookup_2, (Hat start); [lia|done]. }
    apply elem_of_dom in Hin as [v Hv].
    assert (size (store_all (∅ : gmap string V) items) ≠ 0); [|lia].
    apply map_size_non_empty_iff. intros Hempty. by rewrite Hempty, lookup_empty in Hv.
  - intros key v [Hin|Hemp]%lookup_store_all_Some; [|by rewrite lookup_empty in Hemp].
    apply list_elem_of_lookup in Hin as [j Hj].
    assert (j < n) as Hjn by (rewrite Hlen; by eapply lookup_lt_Some).
    destruct (items_lookup item_at start n items j Hitems Hjn) as (kv' & Hj' & Hkv').
    exists (start + j). split; [lia|]. congruence.
  - intros i [k v] Hi Hkv Hlater. cbn in *.
    pose proof (Hat i (k, v) Hi Hkv) as Hj.
    rewrite <- (take_drop_middle items (i - start) (k, v) Hj).
    apply lookup_store_all_last. intros Hin.
    apply list_elem_of_fmap in Hin as ([k' v'] & Hk & Hin). cbn in Hk. subst k'.
    apply list_elem_of_lookup in Hin as [p Hp]. rewrite lookup_drop in Hp.
    assert (S (i - start) + p < n) as Hpn by (rewrite Hlen; by eapply lookup_lt_Some).
    destruct (items_lookup item_at start n items _ Hitems Hpn) as (kv' & Hp' & Hkv').
    rewrite Hp in Hp'. injection Hp' as <-.
    apply item_key in Hkv'. cbn in Hkv'.
    by apply (Hlater (start + (S (i - start) + p))); [lia|].
Qed.

(** Two passes over ranges of the same length whose items agree index
    by index end the same way. *)
Lemma pass_shift (item_at' : nat → option (string * V))
    (body' : nat → gmap string V → outcome (gmap string V)) (start start' n : nat)
    (acc : gmap string V) :
  (∀ i acc, body' i acc = match item_at' i with
                          | Some kv => Return (<[kv.1 := kv.2]> acc)
                          | None => Raise index_error
                          end) →
  (∀ j, j < n → item_at (start + j) = item_at' (start' + j)) →
  for_each (seq start n) body acc = for_each (seq start' n) body' acc.
Proof.
  intros Hbody' Hagree.
  rewrite (for_each_stores item_at body body_stores),
    (for_each_stores item_at' body' Hbody').
  assert (mapM item_at (seq start n) = mapM item_at' (seq start' n)) as ->; [|done].
  clear -Hagree. revert start start' Hagree.
  induction n as [|n IH]; intros start start' Hagree; [done|].
  cbn. pose proof (Hagree 0 ltac:(lia)) as H0. rewrite !Nat.add_0_r in H0.
  rewrite H0, (IH (S start) (S start')); [done|].
  intros j Hj. specialize (Hagree (S j) ltac:(lia)).
  by rewrite !Nat.add_succ_r in Hagree.
Qed.

End PassesGeneral.

(** ** Further properties of the cleaner *)

Section CleanerOutcome.

Context {num : Type}.

Implicit Types (h : hourly_raw num) (d : daily_raw num) (raw : raw_forecast num).

Lemma hourly_lengths_ge_iff (n : nat) h :
  hourly_lengths_ge n h ↔ ¬ hourly_some_shorter n h.
Proof. unfold hourly_lengths_ge, hourly_some_shorter. lia. Qed.

Lemma daily_lengths_ge_iff (n : nat) d :
  daily_lengths_ge n d ↔ ¬ daily_some_shorter n d.
Proof. unfold daily_lengths_ge, daily_some_shorter. lia. Qed.

Lemma hourly_lengths_ge_le (n n' : nat) h :
  hourly_lengths_ge n h → n' ≤ n → hourly_lengths_ge n' h.
Proof. unfold hourly_lengths_ge. lia. Qed.

Lemma daily_lengths_ge_le (n n' : nat) d :
  daily_lengths_ge n d → n' ≤ n → daily_lengths_ge n' d.
Proof. unfold daily_lengths_ge. lia. Qed.

Lemma hourly_item_is_Some_iff h (i : nat) :
  is_Some (hourly_item_at h i) ↔ hourly_lengths_ge (S i) h.
Proof.
  split.
  - intros [kv Hkv]. apply hourly_item_inv in Hkv
      as (H0 & H1 & H2 & (code & H3 & _) & H4 & H5 & H6 & H7).
    apply lookup_lt_Some in H0, H1, H2, H3, H4, H5, H6, H7.
    unfold hourly_lengths_ge. lia.
  - intros Hlen. by apply (hourly_item_is_Some h (S i)); [|lia].
Qed.

Lemma daily_item_is_Some_iff d (i : nat) :
  is_Some (daily_item_at d i) ↔ daily_lengths_ge (S i) d.
Proof.
  split.
  - intros [kv Hkv]. apply daily_item_inv in Hkv
      as (H0 & H1 & H2 & H3 & (code & H4 & _) & H5 & H6).
    apply lookup_lt_Some in H0, H1, H2, H3, H4, H5, H6.
    unfold daily_lengths_ge. lia.
  - intros (H0 & H1 & H2 & H3 & H4 & H5 & H6). unfold daily_item_at.
    destruct (lookup_lt_is_Some_2 (d_temperature_2m_max d) i) as [? ->]; [lia|].
    destruct (lookup_lt_is_Some_2 (d_temperature_2m_min d) i) as [? ->]; [lia|].
    destruct (lookup_lt_is_Some_2 (d_precipitation_sum d) i) as [? ->]; [lia|].
    destruct (lookup_lt_is_Some_2 (d_weathercode d) i) as [? ->]; [lia|].
    destruct (lookup_lt_is_Some_2 (d_windspeed_10m_max d) i) as [? ->]; [lia|].
    destruct (lookup_lt_is_Some_2 (d_winddirection_10m_dominant d) i) as [? ->]; [lia|].
    destruct (lookup_lt_is_Some_2 (d_time d) i) as [? ->]; [lia|].
    cbn. eauto.
Qed.

Lemma hourly_pass_returns_iff (current_hour : nat) h :
  (∃ m, hourly_pass current_hour h = Return m) ↔
  hourly_lengths_ge (current_hour + 12) h.
Proof.
  unfold hourly_pass.
  rewrite (pass_returns_iff (hourly_item_at h) (hourly_body h) (hourly_body_stores h)).
  split.
  - intros Hall. replace (current_hour + 12) with (S (current_hour + 11)) by lia.
    apply hourly_item_is_Some_iff, Hall, elem_of_seq. lia.
  - intros Hlen i Hi%elem_of_seq. apply hourly_item_is_Some_iff.
    apply (hourly_lengths_ge_le _ _ _ Hlen). lia.
Qed.

Lemma daily_pass_returns_iff d :
  (∃ m, daily_pass d = Return m) ↔ daily_lengths_ge (length (d_time d) - 1) d.
Proof.
  unfold daily_pass.
  rewrite (pass_returns_iff (daily_item_at d) (daily_body d) (daily_body_stores d)).
  split.
  - intros Hall. destruct (length (d_time d) - 1) as [|n] eqn:Hn.
    + unfold daily_lengths_ge. lia.
    + apply daily_item_is_Some_iff, Hall, elem_of_seq. lia.
  - intros Hlen i Hi%elem_of_seq. apply daily_item_is_Some_iff.
    apply (daily_lengths_ge_le _ _ _ Hlen). lia.
Qed.

(** The lengths of the arrays decide how the cleaning operation ends. *)
Lemma clean_outcome_by_lengths (current_hour : nat) raw :
  ((∃ cd, _clean_weather_data current_hour raw = Return cd) ↔
   daily_lengths_ge (length (d_time (raw_daily raw)) - 1) (raw_daily raw) ∧
   hourly_lengths_ge (current_hour + 12) (raw_hourly raw)) ∧
  (_clean_weather_data current_hour raw = Raise index_error ↔
   daily_some_shorter (length (d_time (raw_daily raw)) - 1) (raw_daily raw) ∨
   hourly_some_shorter (current_hour + 12) (raw_hourly raw)).
Proof.
  assert ((∃ cd, _clean_weather_data current_hour raw = Return cd) ↔
          daily_lengths_ge (length (d_time (raw_daily raw)) - 1) (raw_daily raw) ∧
          hourly_lengths_ge (current_hour + 12) (raw_hourly raw)) as Hiff.
  { rewrite <- daily_pass_returns_iff, <- hourly_pass_returns_iff, clean_unfold.
    destruct (daily_pass (raw_daily raw)) as [dly|e1];
      destruct (hourly_pass current_hour (raw_hourly raw)) as [hly|e2];
      split; try (intros [[? [=]] [? [=]]]); try (intros [? [=]]); eauto. }
  split; [exact Hiff|].
  rewrite hourly_lengths_ge_iff, daily_lengths_ge_iff in Hiff.
  split.
  - intros Hraise.
    destruct (decide (daily_some_shorter (length (d_time (raw_daily raw)) - 1)
                        (raw_daily raw))) as [?|Hd]; [by left|].
    destruct (decide (hourly_some_shorter (current_hour + 12) (raw_hourly raw)))
      as [?|Hh]; [by right|].
    destruct (proj2 Hiff (conj Hd Hh)) as [cd Hcd]. congruence.
  - intros Hshort.
    destruct (_clean_weather_data current_hour raw) as [cd|e] eqn:Hclean.
    + destruct (proj1 Hiff (ex_intro _ cd eq_refl)) as [Hd Hh]. tauto.
    + by rewrite (clean_raises _ _ _ Hclean).
Qed.

(** A mapping returned by the hourly pass has between 1 and 12 keys. *)
Lemma hourly_pass_size (current_hour : nat) h (m : gmap string (hourly_entry num)) :
  hourly_pass current_hour h = Return m → 1 ≤ size m ≤ 12.
Proof.
  intros Hm.
  destruct (pass_general (h_time h) (hourly_item_at h) (hourly_body h)
              (hourly_item_key h) (hourly_body_stores h) current_hour 12)
    as (m' & Hm' & _ & Hle & Hpos & _).
  - intros i Hi. apply hourly_item_is_Some_iff.
    apply (hourly_lengths_ge_le (current_hour + 12)); [|lia].
    apply hourly_pass_returns_iff. eauto.
  - unfold hourly_pass in Hm. rewrite Hm in Hm'. injection Hm' as ->. lia.
Qed.

(** X1: the cleaning operation returns exactly when every daily array
    has at least [len(daily.time) - 1] entries and every hourly array at
    least [current_hour + 12]; in every other case it raises the
    out-of-range [IndexError]. *)
Theorem clean_returns_iff (current_hour : nat) raw :
  ((∃ cd, _clean_weather_data current_hour raw = Return cd) ↔
   daily_lengths_ge (length (d_time (raw_daily raw)) - 1) (raw_daily raw) ∧
   hourly_lengths_ge (current_hour + 12) (raw_hourly raw)) ∧
  (_clean_weather_data current_hour raw = Raise index_error ↔
   daily_some_shorter (length (d_time (raw_daily raw)) - 1) (raw_daily raw) ∨
   hourly_some_shorter (current_hour + 12) (raw_hourly raw)).
Proof. apply clean_outcome_by_lengths. Qed.

End CleanerOutcome.

Section CleanerOrder.

Context {num : Type}.

Implicit Types (h : hourly_raw num) (d : daily_raw num) (raw : raw_forecast num).

(** X2: whenever every hourly array has at least [current_hour + 12]
    entries, also with repeated timestamps, the hourly pass returns a
    mapping whose keys are the timestamps of the window, between 1 and 12
    of them; every record in it holds the values of some index of the
    window carrying its key, and for a timestamp that occurs several
    times the record of its last occurrence in the window is kept. *)
Theorem hourly_pass_last_wins (current_hour : nat) h :
  hourly_lengths_ge (current_hour + 12) h →
  ∃ m : gmap string (hourly_entry num),
    hourly_pass current_hour h = Return m ∧
    dom m = list_to_set (take 12 (drop current_hour (h_time h))) ∧
    1 ≤ size m ≤ 12 ∧
    (∀ key e, m !! key = Some e →
       ∃ i, current_hour ≤ i < current_hour + 12 ∧
            h_time h !! i = Some key ∧ hourly_entry_from h i e) ∧
    (∀ i key, current_hour ≤ i < current_hour + 12 →
       h_time h !! i = Some key →
       (∀ j, i < j < current_hour + 12 → h_time h !! j ≠ Some key) →
       ∃ e, m !! key = Some e ∧ hourly_entry_from h i e).
Proof.
  intros Hlen.
  assert (∀ i, current_hour ≤ i < current_hour + 12 → is_Some (hourly_item_at h i))
    as Hall.
  { intros i Hi. apply (hourly_item_is_Some _ (current_hour + 12)); [done|lia]. }
  destruct (pass_general (h_time h) (hourly_item_at h) (hourly_body h)
              (hourly_item_key h) (hourly_body_stores h) current_hour 12 Hall)
    as (m & Hm & Hdom & Hle & Hpos & Hfrom & Hlast).
  exists m. split; [done|]. split; [done|]. split; [lia|]. split.
  - intros key e Hkey. destruct (Hfrom key e Hkey) as (i & Hi & Hitem).
    apply hourly_item_inv in Hitem as [Ht He]. eauto.
  - intros i key Hi Ht Hlater. destruct (Hall i Hi) as [[k e] Hitem].
    pose proof (hourly_item_inv _ _ _ Hitem) as [Ht' He]. cbn in *.
    assert (k = key) as -> by congruence.
    exists e. split; [|done]. by apply (Hlast i (key, e)).
Qed.

(** X3: whenever every daily array has at least [len(daily.time) - 1]
    entries, also with repeated timestamps, the daily pass returns a
    mapping whose keys are the timestamps before the last one, at most
    [len(daily.time) - 1] of them; every record in it holds the values of
    some index before the last carrying its key, and for a timestamp that
    occurs several times the record of its last such occurrence is
    kept. *)
Theorem daily_pass_last_wins d :
  daily_lengths_ge (length (d_time d) - 1) d →
  ∃ m : gmap string (daily_entry num),
    daily_pass d = Return m ∧
    dom m = list_to_set (take (length (d_time d) - 1) (d_time d)) ∧
    size m ≤ length (d_time d) - 1 ∧
    (∀ key e, m !! key = Some e →
       ∃ i, i < length (d_time d) - 1 ∧
            d_time d !! i = Some key ∧ daily_entry_from d i e) ∧
    (∀ i key, i < length (d_time d) - 1 →
       d_time d !! i = Some key →
       (∀ j, i < j < length (d_time d) - 1 → d_time d !! j ≠ Some key) →
       ∃ e, m !! key = Some e ∧ daily_entry_from d i e).
Proof.
  intros Hlen.
  assert (∀ i, 0 ≤ i < 0 + (length (d_time d) - 1) → is_Some (daily_item_at d i))
    as Hall.
  { intros i Hi. apply daily_item_is_Some_iff.
    apply (daily_lengths_ge_le _ _ _ Hlen). lia. }
  destruct (pass_general (d_time d) (daily_item_at d) (daily_body d)
              (daily_item_key d) (daily_body_stores d) 0 _ Hall)
    as (m & Hm & Hdom & Hle & Hpos & Hfrom & Hlast).
  exists m. split; [done|]. split; [done|]. split; [done|]. split.
  - intros key e Hkey. destruct (Hfrom key e Hkey) as (i & Hi & Hitem).
    apply daily_item_inv in Hitem as [Ht He]. exists i. split; [lia|done].
  - intros i key Hi Ht Hlater. destruct (Hall i ltac:(lia)) as [[k e] Hitem].
    pose proof (daily_item_inv _ _ _ Hitem) as [Ht' He]. cbn in *.
    assert (k = key) as -> by congruence.
    exists e. split; [|done]. apply (Hlast i (key, e)); [lia|done|].
    intros j Hj. apply Hlater. lia.
Qed.

Lemma hourly_item_window h (start j : nat) :
  j < 12 → hourly_item_at (hourly_window start h) j = hourly_item_at h (start + j).
Proof.
  intros Hj. unfold hourly_item_at, hourly_window. cbn.
  by rewrite !lookup_take_lt, !lookup_drop by done.
Qed.

Lemma daily_item_prefix d (n j : nat) :
  j < n → daily_item_at (daily_prefix n d) j = daily_item_at d j.
Proof.
  intros Hj. unfold daily_item_at, daily_prefix. cbn.
  by rewrite !lookup_take_lt by done.
Qed.

(** X4: the hourly pass reads nothing outside the window: its outcome
    for hour [current_hour] is its outcome for hour 0 on the arrays cut
    down to the twelve entries from [current_hour] on, be it a mapping or
    the error. *)
Theorem hourly_pass_window (current_hour : nat) h :
  hourly_pass current_hour h = hourly_pass 0 (hourly_window current_hour h).
Proof.
  unfold hourly_pass.
  apply (pass_shift (hourly_item_at h) (hourly_body h) (hourly_body_stores h)
           (hourly_item_at (hourly_window current_hour h))).
  - apply hourly_body_stores.
  - intros j Hj. by rewrite hourly_item_window.
Qed.

(** X5: the last entry of the daily arrays never influences the daily
    pass: two daily blocks with equally many timestamps that agree on
    all entries before the last have the same outcome. *)
Theorem daily_pass_ignores_last d (d' : daily_raw num) :
  length (d_time d) = length (d_time d') →
  daily_prefix (length (d_time d) - 1) d = daily_prefix (length (d_time d) - 1) d' →
  daily_pass d = daily_pass d'.
Proof.
  intros Hlen Hprefix. unfold daily_pass. rewrite <- Hlen.
  apply (pass_shift (daily_item_at d) (daily_body d) (daily_body_stores d)
           (daily_item_at d')).
  - apply daily_body_stores.
  - intros j Hj. cbn.
    by rewrite <- (daily_item_prefix d _ j Hj), Hprefix, daily_item_prefix.
Qed.

End CleanerOrder.

Lemma hourly_pass_last_wins_witness :
  hourly_lengths_ge (0 + 12) (raw_hourly Samples.raw_same_stamp) ∧
  ∃ m, hourly_pass 0 (raw_hourly Samples.raw_same_stamp) = Return m ∧
       ∃ e, m !! "T00" = Some e ∧ temp e = 111%Z.
Proof.
  assert (hourly_lengths_ge (0 + 12) (raw_hourly Samples.raw_same_stamp)) as Hlen.
  { vm_compute. repeat split; lia. }
  split; [exact Hlen|].
  destruct (hourly_pass_last_wins 0 (raw_hourly Samples.raw_same_stamp) Hlen)
    as (m & Hm & _ & _ & _ & Hlast).
  exists m. split; [exact Hm|].
  destruct (Hlast 11 "T00") as (e & He & Hfrom).
  - lia.
  - reflexivity.
  - intros j Hj. lia.
  - exists e. split; [exact He|].
    destruct Hfrom as (Ht & _).
    change (Some 111%Z = Some (temp e)) in Ht. by injection Ht.
Defined.

Lemma daily_pass_last_wins_witness :
  daily_lengths_ge (length (d_time (raw_daily Samples.raw_same_stamp)) - 1)
    (raw_daily Samples.raw_same_stamp) ∧
  ∃ m, daily_pass (raw_daily Samples.raw_same_stamp) = Return m ∧
       ∃ e, m !! "D1" = Some e ∧ max_temp e = 22%Z.
Proof.
  assert (daily_lengths_ge (length (d_time (raw_daily Samples.raw_same_stamp)) - 1)
            (raw_daily Samples.raw_same_stamp)) as Hlen.
  { vm_compute. repeat split; lia. }
  split; [exact Hlen|].
  destruct (daily_pass_last_wins (raw_daily Samples.raw_same_stamp) Hlen)
    as (m & Hm & _ & _ & _ & Hlast).
  exists m. split; [exact Hm|].
  destruct (Hlast 1 "D1") as (e & He & Hfrom).
  - vm_compute. lia.
  - reflexivity.
  - intros j Hj. vm_compute in Hj. lia.
  - exists e. split; [exact He|].
    destruct Hfrom as (Ht & _).
    change (Some 22%Z = Some (max_temp e)) in Ht. by injection Ht.
Defined.

Lemma daily_pass_ignores_last_witness :
  length (d_time Samples.daily_ok) = length (d_time Samples.daily_other_last) ∧
  daily_pass Samples.daily_ok = daily_pass Samples.daily_other_last.
Proof.
  split; [reflexivity|].
  apply daily_pass_ignores_last; reflexivity.
Defined.

(** ** Further properties of the translator *)

Lemma descriptions_distinct : NoDup weather_dict_items.*2.
Proof. apply (bool_decide_unpack _). vm_compute. reflexivity. Qed.

Lemma sentinel_not_listed : "unbekannt" ∉ weather_dict_items.*2.
Proof. apply (bool_decide_unpack _). vm_compute. reflexivity. Qed.

(** X6: the sentinel "unbekannt" is returned only for integers outside
    0 .. 99, and two different codes of the table never share a
    description, so the text of a record tells which code it came
    from. *)
Theorem translator_injective :
  (∀ code : Z, _get_string_for_weather_code code = "unbekannt" ↔
               (code < 0 ∨ 99 < code)%Z) ∧
  (∀ code1 code2 : Z, (0 ≤ code1 ≤ 99)%Z → (0 ≤ code2 ≤ 99)%Z →
     _get_string_for_weather_code code1 = _get_string_for_weather_code code2 →
     code1 = code2).
Proof.
  split.
  - intros code. split; [|apply translate_unlisted].
    intros Hs. destruct (decide (0 ≤ code ≤ 99)%Z) as [Hin|]; [|lia].
    destruct (listed_codes code Hin) as [descr Hd].
    rewrite (translate_listed _ _ Hd) in Hs. subst descr.
    destruct sentinel_not_listed. apply list_elem_of_fmap. by exists (code, "unbekannt").
  - intros code1 code2 H1 H2 Heq.
    destruct (listed_codes code1 H1) as [d1 Hd1].
    destruct (listed_codes code2 H2) as [d2 Hd2].
    rewrite (translate_listed _ _ Hd1), (translate_listed _ _ Hd2) in Heq. subst d2.
    apply list_elem_of_lookup in Hd1 as [i1 Hi1], Hd2 as [i2 Hi2].
    assert (i1 = i2) as ->.
    { apply (NoDup_lookup _ _ _ d1 descriptions_distinct);
        rewrite list_lookup_fmap; [by rewrite Hi1|by rewrite Hi2]. }
    congruence.
Qed.

(** ** Further properties of the service *)

Section ServiceOutcome.

Context {num : Type}.

Implicit Types (w : world num) (raw : raw_forecast num) (env : envelope num).

(** Code 200 or 500, by the lengths of the arrays. *)
Lemma get_forecast_by_lengths w (city_arg country_arg : string)
    (lat lon : num) raw :
  geocode w (city_arg +:+ ", " +:+ country_arg) = Some (lat, lon) →
  open_meteo w lat lon = Return raw →
  ((∃ env, get_forecast w city_arg country_arg = Return (env, 200%Z)) ↔
   daily_lengths_ge (length (d_time (raw_daily raw)) - 1) (raw_daily raw) ∧
   hourly_lengths_ge (berlin_hour w + 12) (raw_hourly raw)) ∧
  (get_forecast w city_arg country_arg =
     Return ({| status := "error";
                message := "list index out of range";
                data := EmptyObj |}, 500%Z) ↔
   daily_some_shorter (length (d_time (raw_daily raw)) - 1) (raw_daily raw) ∨
   hourly_some_shorter (berlin_hour w + 12) (raw_hourly raw)).
Proof.
  intros Hgeo Hfetch.
  destruct (clean_outcome_by_lengths (berlin_hour w) raw) as [Hret Hraise].
  rewrite <- Hret, <- Hraise, (get_forecast_found _ _ _ _ _ Hgeo), Hfetch.
  destruct (_clean_weather_data (berlin_hour w) raw) as [cd|e] eqn:Hclean.
  - split; split; try done; eauto.
  - apply clean_raises in Hclean as ->. split; split; try done.
    + by intros [env [=]].
    + by intros [cd [=]].
Qed.

(** X7: once the place is resolved and the provider has answered, the
    lengths of the arrays decide the code: 200 exactly when every daily
    array has at least [len(daily.time) - 1] entries and every hourly
    array at least [current_hour + 12], and 500 with the message "list
    index out of range" exactly when one of them is shorter, be it a
    daily or an hourly one. *)
Theorem service_code_by_lengths w (city_arg country_arg : string)
    (lat lon : num) raw :
  geocode w (city_arg +:+ ", " +:+ country_arg) = Some (lat, lon) →
  open_meteo w lat lon = Return raw →
  ((∃ env, get_forecast w city_arg country_arg = Return (env, 200%Z)) ↔
   daily_lengths_ge (length (d_time (raw_daily raw)) - 1) (raw_daily raw) ∧
   hourly_lengths_ge (berlin_hour w + 12) (raw_hourly raw)) ∧
  (get_forecast w city_arg country_arg =
     Return ({| status := "error";
                message := "list index out of range";
                data := EmptyObj |}, 500%Z) ↔
   daily_some_shorter (length (d_time (raw_daily raw)) - 1) (raw_daily raw) ∨
   hourly_some_shorter (berlin_hour w + 12) (raw_hourly raw)).
Proof. apply get_forecast_by_lengths. Qed.



(** X9:the data of a response with code 200 is assembled from the two
    passes: its [hourly] and [daily] mappings are what the hourly and the
    daily pass return on the provider's forecast at the current hour, its
    [city] and [country] are the arguments, its [ai_text] is empty; the
    hourly mapping has between 1 and 12 keys. *)
Theorem success_data_from_passes w (city_arg country_arg : string) env :
  get_forecast w city_arg country_arg = Return (env, 200%Z) →
  ∃ lat lon raw dly hly,
    geocode w (city_arg +:+ ", " +:+ country_arg) = Some (lat, lon) ∧
    open_meteo w lat lon = Return raw ∧
    daily_pass (raw_daily raw) = Return dly ∧
    hourly_pass (berlin_hour w) (raw_hourly raw) = Return hly ∧
    1 ≤ size hly ≤ 12 ∧
    env = {| status := "success";
             message := "The weather data was successfully retrieved";
             data := Forecast {| hourly := hly; daily := dly;
                                 city := Some city_arg;
                                 country := Some country_arg;
                                 ai_text := Some "" |} |}.
Proof.
  intros Hret.
  destruct (geocode w (city_arg +:+ ", " +:+ country_arg)) as [[lat lon]|] eqn:Hgeo.
  2:{ by rewrite (get_forecast_not_found _ _ _ Hgeo) in Hret. }
  rewrite (get_forecast_found _ _ _ _ _ Hgeo) in Hret.
  destruct (open_meteo w lat lon) as [raw|e] eqn:Hfetch; [|done].
  rewrite clean_unfold in Hret.
  destruct (daily_pass (raw_daily raw)) as [dly|e1] eqn:Hd; [|done].
  destruct (hourly_pass (berlin_hour w) (raw_hourly raw)) as [hly|e2] eqn:Hh; [|done].
  exists lat, lon, raw, dly, hly. injection Hret as <-.
  pose proof (hourly_pass_size _ _ _ Hh) as Hsize.
  repeat split; try done; lia.
Qed.

(** X10: for a well-formed forecast the clock decides: the service
    answers 200 exactly when at least 12 hourly entries are left from the
    current hour on, and 500 with "list index out of range" exactly when
    fewer are left. *)
Theorem well_formed_code_by_hour w (city_arg country_arg : string)
    (lat lon : num) raw :
  geocode w (city_arg +:+ ", " +:+ country_arg) = Some (lat, lon) →
  open_meteo w lat lon = Return raw →
  well_formed raw →
  ((∃ env, get_forecast w city_arg country_arg = Return (env, 200%Z)) ↔
   berlin_hour w + 12 ≤ length (h_time (raw_hourly raw))) ∧
  (get_forecast w city_arg country_arg =
     Return ({| status := "error";
                message := "list index out of range";
                data := EmptyObj |}, 500%Z) ↔
   length (h_time (raw_hourly raw)) < berlin_hour w + 12).
Proof.
  intros Hgeo Hfetch [Hd Hh].
  destruct (get_forecast_by_lengths w city_arg country_arg lat lon raw Hgeo Hfetch)
    as [Hok Hshort].
  rewrite Hok, Hshort. clear Hok Hshort.
  unfold daily_lengths_match, hourly_lengths_match in *.
  unfold daily_lengths_ge, hourly_lengths_ge, daily_some_shorter, hourly_some_shorter.
  lia.
Qed.

(** X11: the geocoder is asked for "city, country" as one string, so two
    requests whose city and country join to the same string end alike:
    the same code and status when the service returns, the same exception
    when it raises. *)
Theorem same_query_same_outcome w (city1 country1 city2 country2 : string) :
  city1 +:+ ", " +:+ country1 = city2 +:+ ", " +:+ country2 →
  (∀ env1 code, get_forecast w city1 country1 = Return (env1, code) →
     ∃ env2, get_forecast w city2 country2 = Return (env2, code) ∧
             status env2 = status env1) ∧
  (∀ e, get_forecast w city1 country1 = Raise e →
        get_forecast w city2 country2 = Raise e).
Proof.
  intros Hquery.
  destruct (geocode w (city1 +:+ ", " +:+ country1)) as [[lat lon]|] eqn:Hgeo1;
    pose proof Hgeo1 as Hgeo2; rewrite Hquery in Hgeo2.
  - rewrite (get_forecast_found _ _ _ _ _ Hgeo1), (get_forecast_found _ _ _ _ _ Hgeo2).
    destruct (open_meteo w lat lon) as [raw|e']; [|by split].
    destruct (_clean_weather_data (berlin_hour w) raw) as [cd|e'']; split; try done.
    + intros env1 code [= <- <-]. eauto.
    + intros env1 code [= <- <-]. eauto.
  - rewrite (get_forecast_not_found _ _ _ Hgeo1), (get_forecast_not_found _ _ _ Hgeo2).
    split; [|done]. intros env1 code [= <- <-]. eauto.
Qed.

End ServiceOutcome.

Lemma service_code_by_lengths_witness :
  geocode Samples.world_ragged ("Berlin" +:+ ", " +:+ "Germany") = Some (52, 13)%Z ∧
  open_meteo Samples.world_ragged 52%Z 13%Z = Return Samples.raw_ragged ∧
  daily_some_shorter (length (d_time (raw_daily Samples.raw_ragged)) - 1)
    (raw_daily Samples.raw_ragged) ∧
  get_forecast Samples.world_ragged "Berlin" "Germany" =
    Return ({| status := "error";
               message := "list index out of range";
               data := EmptyObj |}, 500%Z).
Proof.
  assert (daily_some_shorter (length (d_time (raw_daily Samples.raw_ragged)) - 1)
            (raw_daily Samples.raw_ragged)) as Hshort.
  { right. left. vm_compute. lia. }
  split; [reflexivity|]. split; [reflexivity|]. split; [exact Hshort|].
  apply (proj2 (service_code_by_lengths Samples.world_ragged "Berlin" "Germany"
                  52%Z 13%Z Samples.raw_ragged eq_refl eq_refl)).
  left. exact Hshort.
Defined.


Lemma success_data_from_passes_witness :
  ∃ env, get_forecast Samples.world_ok "Berlin" "Germany" = Return (env, 200%Z) ∧
  ∃ dly hly, daily_pass Samples.daily_ok = Return dly ∧
             hourly_pass 0 Samples.hourly_ok = Return hly ∧
             data env = Forecast {| hourly := hly; daily := dly;
                                    city := Some "Berlin";
                                    country := Some "Germany";
                                    ai_text := Some "" |}.
Proof.
  destruct (get_forecast Samples.world_ok "Berlin" "Germany") as [[env code]|e] eqn:Hret;
    [|vm_compute in Hret; discriminate Hret].
  assert (code = 200%Z) as -> by (vm_compute in Hret; congruence).
  exists env. split; [reflexivity|].
  destruct (success_data_from_passes Samples.world_ok "Berlin" "Germany" env Hret)
    as (lat & lon & raw & dly & hly & Hgeo & Hfetch & Hd & Hh & _ & ->).
  injection Hfetch as <-. exists dly, hly. split; [exact Hd|]. split; [exact Hh|].
  reflexivity.
Defined.

Lemma well_formed_code_by_hour_witness :
  well_formed Samples.raw_ok ∧
  length (h_time (raw_hourly Samples.raw_ok)) = 13 ∧
  (∃ env, get_forecast Samples.world_one "Berlin" "Germany" = Return (env, 200%Z)) ∧
  get_forecast Samples.world_two "Berlin" "Germany" =
    Return ({| status := "error";
               message := "list index out of range";
               data := EmptyObj |}, 500%Z).
Proof.
  assert (well_formed Samples.raw_ok) as Hwf.
  { vm_compute. repeat split. }
  split; [exact Hwf|]. split; [reflexivity|]. split.
  - apply (proj1 (well_formed_code_by_hour Samples.world_one "Berlin" "Germany"
                    52%Z 13%Z Samples.raw_ok eq_refl eq_refl Hwf)).
    vm_compute. lia.
  - apply (proj2 (well_formed_code_by_hour Samples.world_two "Berlin" "Germany"
                    52%Z 13%Z Samples.raw_ok eq_refl eq_refl Hwf)).
    vm_compute. lia.
Defined.

Lemma same_query_same_outcome_witness :
  "Frankfurt, Oder" +:+ ", " +:+ "Germany" = "Frankfurt" +:+ ", " +:+ "Oder, Germany" ∧
  ∀ env1 code,
    get_forecast Samples.world_anywhere "Frankfurt, Oder" "Germany" = Return (env1, code) →
    ∃ env2, get_forecast Samples.world_anywhere "Frankfurt" "Oder, Germany"
              = Return (env2, code) ∧ status env2 = status env1.
Proof.
  split; [reflexivity|].
  exact (proj1 (same_query_same_outcome Samples.world_anywhere
                  "Frankfurt, Oder" "Germany" "Frankfurt" "Oder, Germany" eq_refl)).
Defined.

(** ** Further properties of the routes *)

Section RouteProperties.

Context {num : Type}.

Implicit Types (w : world num) (args : gmap string string).

Lemma app_present w args (c k : string) :
  args !! "city" = Some c →
  args !! "country" = Some k →
  App.get_forecast w args =
  match get_forecast w c k with
  | Raise e => Raise e
  | Return (env, code) =>
      if bool_decide (code ≠ 200%Z)
      then Return (App.jsonify env, code)
      else Return (App.render_template "index.html" (Some (data env)), 200%Z)
  end.
Proof.
  intros Hcity Hcountry. unfold App.get_forecast. rewrite Hcity, Hcountry.
  change (bool_decide (_ ≠ [])) with false. cbn iota.
  by destruct (get_forecast w c k) as [[env code]|e].
Qed.

Lemma app_missing w args :
  args !! "city" = None ∨ args !! "country" = None →
  App.get_forecast w args =
  Return (App.jsonify (failure ("Missing parameters: "
                                +:+ missing_text (args !! "city") (args !! "country"))),
          400%Z).
Proof.
  intros Hmissing. unfold App.get_forecast.
  destruct (args !! "city") as [c|], (args !! "country") as [k|];
    [by destruct Hmissing|reflexivity..].
Qed.

End RouteProperties.

Section RouteClaims.

Context {num : Type}.

Implicit Types (w : world num) (args : gmap string string).

(** X12: a request that lacks [city], [country] or both is answered
    with HTTP 400 and the error envelope whose message names exactly the
    absent parameters, [city] before [country]; the answer is the same
    for every geocoder, provider and clock, so none of them is
    consulted. *)
Theorem app_missing_parameters w args :
  args !! "city" = None ∨ args !! "country" = None →
  (∃ names,
     App.get_forecast w args =
       Return (App.jsonify {| status := "error";
                              message := "Missing parameters: " +:+ names;
                              data := EmptyObj |}, 400%Z) ∧
     names = match args !! "city", args !! "country" with
             | None, None => "city, country"
             | None, Some _ => "city"
             | Some _, None => "country"
             | Some _, Some _ => ""
             end) ∧
  ∀ w' : world num, App.get_forecast w' args = App.get_forecast w args.
Proof.
  intros Hmissing. split.
  - eexists. split; [by apply app_missing|done].
  - intros w'. by rewrite !app_missing.
Qed.

(** X13: whatever the route returns has one of two shapes: a JSON
    envelope with code 400 or 500, status "error", empty data and a
    message that is not empty, or the page "index.html" with code 200,
    rendered with the forecast whose [city] and [country] are the
    parameters of the request. *)
Theorem app_response_shape w args (b : App.body num) (code : Z) :
  App.get_forecast w args = Return (b, code) →
  match b with
  | App.jsonify env =>
      (code = 400%Z ∨ code = 500%Z) ∧
      status env = "error" ∧ data env = EmptyObj ∧ message env ≠ ""
  | App.render_template name weather_data =>
      code = 200%Z ∧ name = "index.html" ∧
      ∃ cd, weather_data = Some (Forecast cd) ∧
            args !! "city" = city cd ∧
            args !! "country" = country cd ∧
            ai_text cd = Some ""
  end.
Proof.
  intros Hret.
  destruct (args !! "city") as [c|] eqn:Hcity;
    destruct (args !! "country") as [k|] eqn:Hcountry.
  2-4: rewrite app_missing in Hret by auto;
       rewrite Hcity, Hcountry in Hret; injection Hret as <- <-;
       cbn; repeat split; auto; done.
  rewrite (app_present _ _ c k Hcity Hcountry) in Hret.
  destruct (get_forecast_cases w c k) as [Hc|[[e Hc]|[Hc|(cd & Hc & Hci & Hco & Hai)]]];
    rewrite Hc in Hret; try done; case_bool_decide; try done;
    injection Hret as <- <-; cbn.
  - repeat split; auto.
  - repeat split; auto.
  - repeat split. exists cd. by rewrite Hci, Hco.
Qed.


(** X15: a parameter that is present counts as supplied even when it is
    the empty string: with both present and a place the geocoder does not
    find, the route answers 400 with the not-found message naming city
    and country, not with the missing-parameters message. *)
Theorem app_not_found w args (c k : string) :
  args !! "city" = Some c →
  args !! "country" = Some k →
  geocode w (c +:+ ", " +:+ k) = None →
  App.get_forecast w args =
    Return (App.jsonify
              {| status := "error";
                 message := "We could not find the coordinates for the City: "
                            +:+ c +:+ " in the Country: " +:+ k;
                 data := EmptyObj |}, 400%Z).
Proof.
  intros Hcity Hcountry Hgeo.
  by rewrite (app_present _ _ c k Hcity Hcountry), (get_forecast_not_found _ _ _ Hgeo).
Qed.

(** X16: with both parameters present, the place resolved and the
    provider answering, the route renders the page exactly when every
    daily array has at least [len(daily.time) - 1] entries and every
    hourly array at least [current_hour + 12]; otherwise it forwards the
    service's envelope with code 500. *)
Theorem app_page_iff w args (c k : string) (lat lon : num) (raw : raw_forecast num) :
  args !! "city" = Some c →
  args !! "country" = Some k →
  geocode w (c +:+ ", " +:+ k) = Some (lat, lon) →
  open_meteo w lat lon = Return raw →
  ((∃ weather_data,
      App.get_forecast w args =
        Return (App.render_template "index.html" weather_data, 200%Z)) ↔
   daily_lengths_ge (length (d_time (raw_daily raw)) - 1) (raw_daily raw) ∧
   hourly_lengths_ge (berlin_hour w + 12) (raw_hourly raw)) ∧
  (App.get_forecast w args =
     Return (App.jsonify {| status := "error";
                            message := "list index out of range";
                            data := EmptyObj |}, 500%Z) ↔
   daily_some_shorter (length (d_time (raw_daily raw)) - 1) (raw_daily raw) ∨
   hourly_some_shorter (berlin_hour w + 12) (raw_hourly raw)).
Proof.
  intros Hcity Hcountry Hgeo Hfetch.
  destruct (get_forecast_by_lengths w c k lat lon raw Hgeo Hfetch) as [Hok Hshort].
  rewrite <- Hok, <- Hshort, (app_present _ _ c k Hcity Hcountry).
  destruct (get_forecast_cases w c k) as [Hc|[[e Hc]|[Hc|(cd & Hc & _)]]];
    rewrite Hc; try case_bool_decide; try done.
  - split; split; try done; by intros [? [=]].
  - split; split; try done; by intros [? [=]].
  - split; split; try done; by intros [? [=]].
  - split; split; try done; eauto.
Qed.

End RouteClaims.

Lemma app_missing_parameters_witness :
  (Samples.args_city_only !! "city" = None ∨
   Samples.args_city_only !! "country" = None) ∧
  App.get_forecast Samples.world_ok Samples.args_city_only =
    Return (App.jsonify {| status := "error";
                           message := "Missing parameters: country";
                           data := EmptyObj |}, 400%Z).
Proof.
  assert (Samples.args_city_only !! "city" = None ∨
          Samples.args_city_only !! "country" = None) as Hmissing.
  { right. reflexivity. }
  split; [exact Hmissing|].
  destruct (app_missing_parameters Samples.world_ok Samples.args_city_only Hmissing)
    as [(names & Hret & Hnames) _].
  rewrite Hret, Hnames. reflexivity.
Defined.

Lemma app_response_shape_witness :
  ∃ weather_data,
    App.get_forecast Samples.world_ok Samples.args_berlin =
      Return (App.render_template "index.html" weather_data, 200%Z) ∧
    ∃ cd, weather_data = Some (Forecast cd) ∧
          city cd = Some "Berlin" ∧ country cd = Some "Germany".
Proof.
  destruct (App.get_forecast Samples.world_ok Samples.args_berlin)
    as [[[env|name weather_data] code]|e] eqn:Hret;
    [vm_compute in Hret; discriminate Hret| |vm_compute in Hret; discriminate Hret].
  destruct (app_response_shape Samples.world_ok Samples.args_berlin _ _ Hret)
    as (-> & -> & cd & Hwd & Hcity & Hcountry & _).
  exists weather_data. split; [reflexivity|].
  exists cd. split; [exact Hwd|]. split; [by rewrite <- Hcity|by rewrite <- Hcountry].
Defined.


Lemma app_not_found_witness :
  Samples.args_blank !! "city" = Some "" ∧
  Samples.args_blank !! "country" = Some "" ∧
  geocode Samples.world_ok ("" +:+ ", " +:+ "") = None ∧
  App.get_forecast Samples.world_ok Samples.args_blank =
    Return (App.jsonify
              {| status := "error";
                 message := "We could not find the coordinates for the City: "
                            +:+ "" +:+ " in the Country: " +:+ "";
                 data := EmptyObj |}, 400%Z).
Proof.
  split; [reflexivity|]. split; [reflexivity|]. split; [reflexivity|].
  exact (app_not_found Samples.world_ok Samples.args_blank "" "" eq_refl eq_refl eq_refl).
Defined.

Lemma app_page_iff_witness :
  Samples.args_berlin !! "city" = Some "Berlin" ∧
  Samples.args_berlin !! "country" = Some "Germany" ∧
  geocode Samples.world_ragged ("Berlin" +:+ ", " +:+ "Germany") = Some (52, 13)%Z ∧
  open_meteo Samples.world_ragged 52%Z 13%Z = Return Samples.raw_ragged ∧
  App.get_forecast Samples.world_ragged Samples.args_berlin =
    Return (App.jsonify {| status := "error";
                           message := "list index out of range";
                           data := EmptyObj |}, 500%Z).
Proof.
  split; [reflexivity|]. split; [reflexivity|]. split; [reflexivity|].
  split; [reflexivity|].
  apply (proj2 (app_page_iff Samples.world_ragged Samples.args_berlin
                  "Berlin" "Germany" 52%Z 13%Z Samples.raw_ragged
                  eq_refl eq_refl eq_refl eq_refl)).
  left. right. left. vm_compute. lia.
Defined.
